(** * chromium-dashboard: the star-toggle API and the email pipeline

    A shallow embedding of [api/stars_api.py] and [framework/sendemail.py],
    with the properties their specification states about them.

    Python values that reach the handlers from a JSON body are kept dynamically
    typed ([pyval]); exceptions and [flask.abort] are an error result; the
    datastore, the mail transport and the task queue are an explicit [World]
    that every handler threads through. *)

From Stdlib Require Import ZArith List String Ascii Bool Lia.
From Stdlib Require Import DecimalString.
Import ListNotations.
Local Open Scope string_scope.
Local Open Scope Z_scope.
Local Set Warnings "-register-all".

(** ** Python values and exceptions *)

Module Py.

(** The values [json.loads] produces.  A JSON object is kept as the item list
    of the resulting dict (distinct keys, insertion order).  Floating-point
    numbers are left out of the model. *)
Inductive pyval : Type :=
| JNull
| JBool (b : bool)
| JInt (n : Z)
| JStr (s : string)
| JList (xs : list pyval)
| JObj (items : list (string * pyval)).

(** Exceptions the modelled code can raise.  [HTTPException] is what
    [flask.abort(code, description=...)] raises.  [Unsupported] marks a use of
    a builtin outside the fragment this development models (see [pct_format]). *)
Inductive exn : Type :=
| HTTPException (code : Z) (description : string)
| BadRequest
| ValueError (msg : string)
| KeyError (key : string)
| TypeError
| AttributeError
| IndexError
| UnicodeDecodeError
| MissingFieldError
| TransportError
| Unsupported.

Inductive result (A : Type) : Type :=
| Ok (a : A)
| Raise (e : exn).
Arguments Ok {A} a.
Arguments Raise {A} e.

Definition rbind {A B} (r : result A) (k : A -> result B) : result B :=
  match r with
  | Ok a => k a
  | Raise e => Raise e
  end.

Definition rmap {A B} (f : A -> B) (r : result A) : result B :=
  rbind r (fun a => Ok (f a)).

Declare Scope result_scope.
Delimit Scope result_scope with result.
Notation "'let*' x ':=' c 'in' k" := (rbind c (fun x => k))
  (at level 61, x pattern, c at next level, right associativity) : result_scope.
Local Open Scope result_scope.

Fixpoint rmapM {A B} (f : A -> result B) (l : list A) : result (list B) :=
  match l with
  | [] => Ok []
  | x :: l' => let* y := f x in let* ys := rmapM f l' in Ok (y :: ys)
  end.

(** [dict.get(key)]: the value, or [None] when the key is absent. *)
Fixpoint assoc {V} (key : string) (items : list (string * V)) : option V :=
  match items with
  | [] => None
  | (k, v) :: rest => if String.eqb k key then Some v else assoc key rest
  end.

(** Truth value of a Python object, as [not val] and [if val:] test it. *)
Definition truthy (v : pyval) : bool :=
  match v with
  | JNull => false
  | JBool b => b
  | JInt n => negb (n =? 0)
  | JStr s => negb (String.eqb s "")
  | JList xs => match xs with [] => false | _ => true end
  | JObj items => match items with [] => false | _ => true end
  end.

Definition truthy_str (s : string) : bool := negb (String.eqb s "").

(** A setting that is either [None] or a string. *)
Definition truthy_opt (o : option string) : bool :=
  match o with
  | None => false
  | Some s => truthy_str s
  end.

Definition isinstance_str (v : pyval) : bool :=
  match v with JStr _ => true | _ => false end.

(** [a == b] on JSON values: structural, with [bool] comparing as the
    integer it is, and dicts comparing regardless of item order. *)
Fixpoint py_eqb (a b : pyval) {struct a} : bool :=
  match a, b with
  | JNull, JNull => true
  | JBool x, JBool y => Bool.eqb x y
  | JBool x, JInt y => Z.b2z x =? y
  | JInt x, JBool y => x =? Z.b2z y
  | JInt x, JInt y => x =? y
  | JStr x, JStr y => String.eqb x y
  | JList xs, JList ys =>
      (fix go (xs ys : list pyval) {struct xs} : bool :=
         match xs, ys with
         | [], [] => true
         | x :: xs', y :: ys' => py_eqb x y && go xs' ys'
         | _, _ => false
         end) xs ys
  | JObj xs, JObj ys =>
      (Nat.eqb (List.length xs) (List.length ys)) &&
      (fix go (xs : list (string * pyval)) {struct xs} : bool :=
         match xs with
         | [] => true
         | (k, v) :: xs' =>
             match assoc k ys with
             | Some v' => py_eqb v v' && go xs'
             | None => false
             end
         end) xs
  | _, _ => false
  end.

(** *** Strings

    A Python [str] is represented by its UTF-8 encoding, one [ascii] per
    byte. *)

Definition char_eqb (a b : ascii) : bool := Ascii.eqb a b.

(** [s.split(sep)] for a one-character separator: never empty, one more piece
    than there are separators. *)
Fixpoint split_on (sep : ascii) (s : string) : list string :=
  match s with
  | EmptyString => [EmptyString]
  | String c rest =>
      if char_eqb c sep then EmptyString :: split_on sep rest
      else match split_on sep rest with
           | [] => [String c EmptyString]
           | piece :: pieces => String c piece :: pieces
           end
  end.

(** [addr.split('@')] on a dynamically typed value: only [str] has [split]. *)
Definition py_split (sep : ascii) (v : pyval) : result (list string) :=
  match v with
  | JStr s => Ok (split_on sep s)
  | _ => Raise AttributeError
  end.

Fixpoint contains_char (c : ascii) (s : string) : bool :=
  match s with
  | EmptyString => false
  | String c' rest => char_eqb c' c || contains_char c rest
  end.

Definition lower_char (c : ascii) : ascii :=
  let n := N_of_ascii c in
  if ((65 <=? n) && (n <=? 90))%N then ascii_of_N (n + 32) else c.

(** [s.lower()].  ASCII capitals are lowered and KELVIN SIGN (U+212A, bytes
    E2 84 AA) becomes "k"; it is the only character outside ASCII whose
    lowercase is an ASCII letter.  Other characters outside ASCII are copied,
    so the result is exact whenever it is compared with an ASCII string. *)
Fixpoint lower (s : string) : string :=
  match s with
  | EmptyString => EmptyString
  | String c rest =>
      match rest with
      | String c1 (String c2 rest') =>
          if (N_of_ascii c =? 226)%N && (N_of_ascii c1 =? 132)%N
             && (N_of_ascii c2 =? 170)%N
          then String "k" (lower rest')
          else String (lower_char c) (lower rest)
      | _ => String (lower_char c) (lower rest)
      end
  end.

Definition hex_digit (n : N) : ascii :=
  if (n <? 10)%N then ascii_of_N (48 + n) else ascii_of_N (87 + n).

(** [repr(s)] for a [str]: single quotes unless the text holds a single quote
    and no double quote; backslash, the chosen quote, newline, carriage return
    and tab are escaped, other ASCII control characters are written in hex.
    Exact on ASCII text; bytes of characters outside ASCII are copied. *)
Fixpoint repr_body (quote : ascii) (s : string) : string :=
  match s with
  | EmptyString => EmptyString
  | String c rest =>
      let n := N_of_ascii c in
      let tail := repr_body quote rest in
      if char_eqb c "\" then String "\" (String "\" tail)
      else if char_eqb c quote then String "\" (String c tail)
      else if (n =? 10)%N then String "\" (String "n" tail)
      else if (n =? 13)%N then String "\" (String "r" tail)
      else if (n =? 9)%N then String "\" (String "t" tail)
      else if ((n <? 32) || (n =? 127))%N
           then String "\" (String "x" (String (hex_digit (n / 16))
                  (String (hex_digit (n mod 16)) tail)))
      else String c tail
  end.

Definition dquote : ascii := ascii_of_N 34.

Definition repr_str (s : string) : string :=
  let quote : ascii :=
    if contains_char "'" s && negb (contains_char dquote s) then dquote
    else "'"%char in
  String quote (repr_body quote s ++ String quote EmptyString).

Definition str_of_Z (n : Z) : string :=
  NilZero.string_of_int (Z.to_int n).

Definition join_comma (l : list string) : string :=
  String.concat ", " l.

(** [repr(v)] and [str(v)] of a JSON value; they differ on [str] only. *)
Fixpoint py_repr (v : pyval) : string :=
  match v with
  | JNull => "None"
  | JBool true => "True"
  | JBool false => "False"
  | JInt n => str_of_Z n
  | JStr s => repr_str s
  | JList xs => "[" ++ join_comma (map py_repr xs) ++ "]"
  | JObj items =>
      "{" ++ join_comma
               (map (fun kv => repr_str (fst kv) ++ ": " ++ py_repr (snd kv)) items)
          ++ "}"
  end.

Definition py_str (v : pyval) : string :=
  match v with
  | JStr s => s
  | _ => py_repr v
  end.

(** *** Printf-style formatting with a mapping: [template % {...}]

    The fragment modelled is the one the staging templates are written in:
    literal text, [%%], and [%(key)s] with a [str] value.  The key runs to the
    parenthesis that closes it, nested parentheses counted as CPython does.
    A conversion outside the fragment (flags, widths, other conversion types,
    a conversion without a key) gives [Unsupported]. *)
Inductive fmt_state : Type :=
| FText
| FPercent
| FKey (depth : nat) (key : string)
| FConv (value : string).

Definition prepend (c : ascii) (r : result string) : result string :=
  rmap (String c) r.

Definition snoc (s : string) (c : ascii) : string := s ++ String c EmptyString.

Fixpoint pct_go (args : list (string * string)) (st : fmt_state) (tmpl : string)
  : result string :=
  match tmpl with
  | EmptyString =>
      match st with
      | FText => Ok EmptyString
      | FPercent => Raise (ValueError "incomplete format")
      | FKey _ _ => Raise (ValueError "incomplete format key")
      | FConv _ => Raise (ValueError "incomplete format")
      end
  | String c rest =>
      match st with
      | FText =>
          if char_eqb c "%" then pct_go args FPercent rest
          else prepend c (pct_go args FText rest)
      | FPercent =>
          if char_eqb c "%" then prepend "%" (pct_go args FText rest)
          else if char_eqb c "(" then pct_go args (FKey 1 EmptyString) rest
          else Raise Unsupported
      | FKey depth key =>
          if char_eqb c ")" then
            match depth with
            | S (S d) => pct_go args (FKey (S d) (snoc key c)) rest
            | _ =>
                match assoc key args with
                | Some v => pct_go args (FConv v) rest
                | None => Raise (KeyError key)
                end
            end
          else if char_eqb c "(" then pct_go args (FKey (S depth) (snoc key c)) rest
          else pct_go args (FKey depth (snoc key c)) rest
      | FConv v =>
          if char_eqb c "s" then rmap (String.append v) (pct_go args FText rest)
          else Raise Unsupported
      end
  end.

Definition pct_format (tmpl : string) (args : list (string * string))
  : result string :=
  pct_go args FText tmpl.

(** [None % {...}] is a [TypeError]; a [str] setting is formatted. *)
Definition pct_format_opt (tmpl : option string) (args : list (string * string))
  : result string :=
  match tmpl with
  | None => Raise TypeError
  | Some t => pct_format t args
  end.

(** *** [bytes.decode('utf-8')]

    Text being kept as its UTF-8 encoding, decoding returns the same bytes
    when they are well-formed UTF-8 (no overlong form, no surrogate, nothing
    above U+10FFFF) and raises [UnicodeDecodeError] otherwise. *)
Definition in_range (lo hi : N) (c : ascii) : bool :=
  let n := N_of_ascii c in ((lo <=? n) && (n <=? hi))%N.

Definition is_cont (c : ascii) : bool := in_range 128 191 c.

Fixpoint valid_utf8 (s : string) : bool :=
  match s with
  | EmptyString => true
  | String b0 r0 =>
      if in_range 0 127 b0 then valid_utf8 r0
      else match r0 with
      | EmptyString => false
      | String b1 r1 =>
          if in_range 194 223 b0 then is_cont b1 && valid_utf8 r1
          else match r1 with
          | EmptyString => false
          | String b2 r2 =>
              if in_range 224 224 b0
              then in_range 160 191 b1 && is_cont b2 && valid_utf8 r2
              else if in_range 237 237 b0
              then in_range 128 159 b1 && is_cont b2 && valid_utf8 r2
              else if in_range 225 239 b0
              then is_cont b1 && is_cont b2 && valid_utf8 r2
              else match r2 with
              | EmptyString => false
              | String b3 r3 =>
                  if in_range 240 240 b0
                  then in_range 144 191 b1 && is_cont b2 && is_cont b3
                       && valid_utf8 r3
                  else if in_range 241 243 b0
                  then is_cont b1 && is_cont b2 && is_cont b3 && valid_utf8 r3
                  else if in_range 244 244 b0
                  then in_range 128 143 b1 && is_cont b2 && is_cont b3
                       && valid_utf8 r3
                  else false
              end
          end
      end
  end.

Definition decode_utf8 (bytes : string) : result string :=
  if valid_utf8 bytes then Ok bytes else Raise UnicodeDecodeError.

(** The value of a key among a dict's items, [default] when it is absent. *)
Definition item (items : list (string * pyval)) (name : string)
    (default : pyval) : pyval :=
  match assoc name items with
  | Some v => v
  | None => default
  end.

(** [json_body.get(name, default)]: only a dict has [get]. *)
Definition dict_get_default (d : pyval) (name : string) (default : pyval)
  : result pyval :=
  match d with
  | JObj items => Ok (item items name default)
  | _ => Raise AttributeError
  end.

(** [json_body.get(name)]: an absent key gives [None]. *)
Definition dict_get (d : pyval) (name : string) : result pyval :=
  dict_get_default d name JNull.

(** The elements a [for] loop or a comprehension visits.  A dict yields its
    keys; [None], a bool and an int are not iterable.  A [str] is never
    iterated by the modelled code (it is wrapped in a list first). *)
Definition py_iter (v : pyval) : result (list pyval) :=
  match v with
  | JList xs => Ok xs
  | JObj items => Ok (map (fun kv => JStr (fst kv)) items)
  | JStr _ => Raise Unsupported
  | _ => Raise TypeError
  end.

(** [{'message': text}], what every handler returns. *)
Definition message_response (text : string) : pyval :=
  JObj [("message", JStr text)].

End Py.

(** ** The world the handlers act on *)

Module Effects.
Import Py.

(** [mail.EmailMessage]: the attributes the handlers set.  An attribute that
    was never assigned is [None] here, [headers] is empty. *)
Record EmailMessage : Type := mkEmail {
  sender : string;
  to : pyval;
  subject : pyval;
  html : option pyval;
  body : option string;
  reply_to : option pyval;
  cc : option pyval;
  headers : list (string * pyval)
}.

(** Modelled from the spec: [internals.user_models.UserPref], the
    UserMailPreference record of the data model: the address is the key and
    [bounced] the only field this module writes. *)
Record UserPref : Type := mkPref {
  email : option string;
  bounced : bool
}.

(** Calls made to the external collaborators, oldest first. *)
Inductive event : Type :=
| EvParse (data : string)
| EvPut (p : UserPref)
| EvSend (m : EmailMessage)
| EvEnqueue (path : string) (task : list (string * pyval))
| EvSetStar (user_email : string) (feature_id : Z) (starred : pyval).

Record World : Type := mkWorld {
  prefs : list UserPref;
  trace : list event;
  mail_up : bool;
  queue_up : bool
}.

Definition M (A : Type) : Type := World -> result A * World.

Definition ret {A} (a : A) : M A := fun w => (Ok a, w).

Definition bind {A B} (c : M A) (k : A -> M B) : M B :=
  fun w =>
    match c w with
    | (Ok a, w') => k a w'
    | (Raise e, w') => (Raise e, w')
    end.

Definition lift {A} (r : result A) : M A := fun w => (r, w).

(** The world after further calls to the collaborators. *)
Definition logged (w : World) (es : list event) : World :=
  mkWorld (prefs w) (trace w ++ es) (mail_up w) (queue_up w).

Definition emit (e : event) : M unit := fun w => (Ok tt, logged w [e]).

Declare Scope effect_scope.
Delimit Scope effect_scope with effect.
Notation "x <- c ;; k" := (bind c (fun x => k))
  (at level 100, c at next level, right associativity) : effect_scope.
Notation "c ;; k" := (bind c (fun _ => k))
  (at level 100, right associativity) : effect_scope.

Local Open Scope effect_scope.

(** [message.send()]: the call reaches the transport, which may fail. *)
Definition send (m : EmailMessage) : M unit :=
  emit (EvSend m) ;;
  fun w => if mail_up w then (Ok tt, w) else (Raise TransportError, w).

(** [cloud_tasks_helpers.enqueue_task(path, task)]. *)
Definition enqueue_task (path : string) (task : list (string * pyval)) : M unit :=
  emit (EvEnqueue path task) ;;
  fun w => if queue_up w then (Ok tt, w) else (Raise TransportError, w).

Definition opt_str_eqb (a b : option string) : bool :=
  match a, b with
  | Some x, Some y => String.eqb x y
  | None, None => true
  | _, _ => false
  end.

Definition same_email (a : option string) (p : UserPref) : bool :=
  opt_str_eqb (email p) a.

(** Modelled from the spec: [UserPref.put()], which persists the record
    under its key, replacing what was stored for that address. *)
Definition put (p : UserPref) : M unit :=
  emit (EvPut p) ;;
  fun w =>
    (Ok tt,
     mkWorld (p :: filter (fun q => negb (same_email (email p) q)) (prefs w))
             (trace w) (mail_up w) (queue_up w)).

(** The record persisted for an address, if any. *)
Definition stored_pref (w : World) (addr : option string) : option UserPref :=
  find (same_email addr) (prefs w).

(** [mail.EmailMessage.check_initialized] of the App Engine mail API:
    sender, recipients and subject must be non-empty. *)
Definition check_initialized (m : EmailMessage) : result unit :=
  if truthy_str (sender m) && truthy (to m) && truthy (subject m)
  then Ok tt else Raise MissingFieldError.

Definition sends (t : list event) : list EmailMessage :=
  flat_map (fun e => match e with EvSend m => [m] | _ => [] end) t.

Definition enqueued (t : list event) : list (string * list (string * pyval)) :=
  flat_map (fun e => match e with EvEnqueue p task => [(p, task)] | _ => [] end) t.

Definition parses (t : list event) : list string :=
  flat_map (fun e => match e with EvParse d => [d] | _ => [] end) t.

End Effects.

(** ** framework/sendemail.py *)

Module Sendemail.
Import Py Effects.
Local Open Scope result_scope.
Local Open Scope effect_scope.

(** The attributes of the [settings] module that the handlers read. *)
Record Settings : Type := mkSettings {
  UNIT_TEST_MODE : bool;
  DEV_MODE : bool;
  SEND_EMAIL : bool;
  SEND_ALL_EMAIL_TO : option string;
  CC_ALL_EMAIL_TO : option string;
  REVIEW_COMMENT_MAILING_LIST : pyval;
  APP_ID : string;
  BOUNCE_ESCALATION_ADDR : string;
  INBOUND_EMAIL_ADDR : string;
  MAX_LOG_LINE : Z
}.

(** What the handlers read of [flask.request].  [req_json] is [None] when the
    body is not JSON; [content_length] is [None] without a Content-Length. *)
Record Request : Type := mkRequest {
  req_headers : list (string * string);
  req_json : option pyval;
  content_length : option Z;
  req_data : string
}.

Definition MAX_BODY_SIZE : Z := 20 * 1024 * 1024.

(** Header names compare without regard to case. *)
Definition header_named (name : string) (h : string * string) : bool :=
  String.eqb (lower (fst h)) (lower name).

Definition has_header (name : string) (hs : list (string * string)) : bool :=
  existsb (header_named name) hs.

Definition require_task_header (st : Settings) (request : Request) : result unit :=
  if UNIT_TEST_MODE st || DEV_MODE st then Ok tt
  else if negb (has_header "X-AppEngine-QueueName" (req_headers request))
  then Raise (HTTPException 403 "Lacking X-AppEngine-QueueName header")
  else Ok tt.

Definition get_json (request : Request) : result pyval :=
  match req_json request with
  | Some v => Ok v
  | None => Raise BadRequest
  end.

Definition get_param (request : Request) (name : string) (required : bool)
  : result pyval :=
  let* json_body := get_json request in
  let* val := dict_get json_body name in
  if required && negb (truthy val)
  then Raise (HTTPException 400 ("Missing parameter " ++ repr_str name))
  else Ok val.

Definition user_domain (user domain : string) : list (string * string) :=
  [("user", user); ("domain", domain)].

Definition format_staging_email (st : Settings) (addr : pyval) : result string :=
  if negb (truthy_opt (SEND_ALL_EMAIL_TO st)) then Ok ""
  else
    let* pieces := py_split "@" addr in
    match pieces with
    | [to_user; to_domain] =>
        pct_format_opt (SEND_ALL_EMAIL_TO st) (user_domain to_user to_domain)
    | _ => Raise (ValueError "unpack")
    end.

(** The body of the [for cc_addr in cc] loop. *)
Definition format_cc_email (st : Settings) (cc_addr : pyval) : result string :=
  let* pieces := py_split "@" cc_addr in
  match pieces with
  | [cc_user; cc_domain] =>
      pct_format_opt (CC_ALL_EMAIL_TO st) (user_domain cc_user cc_domain)
  | _ => Raise (ValueError "unpack")
  end.

Definition str_list (l : list string) : pyval := JList (map JStr l).

(** [if isinstance(x, str): x = [x]]. *)
Definition as_list (x : pyval) : pyval :=
  if isinstance_str x then JList [x] else x.

(** Lines 78-87: the staging rewrite of [to] and [cc]. *)
Definition staging_rewrite (st : Settings) (to cc : pyval)
  : result (pyval * pyval) :=
  if truthy_opt (SEND_ALL_EMAIL_TO st)
     && negb (py_eqb to (REVIEW_COMMENT_MAILING_LIST st))
  then
    let* addrs := py_iter to in
    let* new_to := rmapM (format_staging_email st) addrs in
    if truthy cc then
      let* cc_addrs := py_iter cc in
      let* new_cc := rmapM (format_cc_email st) cc_addrs in
      Ok (str_list new_to, str_list new_cc)
    else Ok (str_list new_to, cc)
  else Ok (to, cc).

Definition default_sender (st : Settings) : string :=
  "Chromestatus <admin@" ++ APP_ID st ++ ".appspotmail.com>".

Definition sender_for (st : Settings) (from_user : pyval) : string :=
  if truthy from_user then
    py_str from_user ++ " via Chromestatus <admin+" ++ py_str from_user
      ++ "@" ++ APP_ID st ++ ".appspotmail.com>"
  else default_sender st.

Definition when_truthy (v : pyval) : option pyval :=
  if truthy v then Some v else None.

(** Lines 62-106 of [handle_outbound_mail_task]: the parameters are read and
    the message is built.  Nothing here touches the world. *)
Definition outbound_message (st : Settings) (request : Request)
  : result EmailMessage :=
  let* json_body := get_json request in
  let* to := get_param request "to" true in
  let* cc := get_param request "cc" false in
  let* from_user := get_param request "from_user" false in
  let* subject := get_param request "subject" true in
  let* email_html := get_param request "html" true in
  let* references := get_param request "references" false in
  let* reply_to := get_param request "reply_to" false in
  let to := as_list to in
  let cc := as_list cc in
  let* (to, cc) := staging_rewrite st to cc in
  let sender := sender_for st from_user in
  let message :=
    mkEmail sender to subject (Some email_html) None (when_truthy reply_to)
            None [] in
  let* _ := check_initialized message in
  let message :=
    mkEmail sender to subject (Some email_html) None (when_truthy reply_to)
            (when_truthy cc)
            (if truthy references
             then [("References", references); ("In-Reply-To", references)]
             else []) in
  Ok message.

(** [message.html[:settings.MAX_LOG_LINE]] in the last logging call: a
    [str] or a list can be sliced, anything else raises. *)
Definition log_preview (m : EmailMessage) : result unit :=
  match html m with
  | Some (JStr _) | Some (JList _) => Ok tt
  | _ => Raise TypeError
  end.

Definition handle_outbound_mail_task (st : Settings) (request : Request)
  : M pyval :=
  lift (require_task_header st request) ;;
  message <- lift (outbound_message st request) ;;
  lift (log_preview message) ;;
  (if SEND_EMAIL st then send message else ret tt) ;;
  ret (message_response "Done").

(** *** Bounce notices *)

(** [mail.BounceNotification]: the dict of the bounced message's fields. *)
Record BounceNotification : Type := mkBounce {
  original : list (string * string)
}.

Definition original_get (b : BounceNotification) (key : string)
  : option string :=
  assoc key (original b).

(** [repr] of a value that is a [str] or [None]. *)
Definition repr_opt (v : option string) : string :=
  match v with
  | Some s => repr_str s
  | None => "None"
  end.

Definition nl : string := String (ascii_of_N 10) EmptyString.

Definition field (b : BounceNotification) (key : string) : result string :=
  match assoc key (original b) with
  | Some s => Ok s
  | None => Raise (KeyError key)
  end.

(** The escalation text, [str.format] over [bounce_message.original]: the fields
    are looked up from left to right and a missing one is a [KeyError]. *)
Definition bounce_body (b : BounceNotification) : result string :=
  let* from := field b "from" in
  let* to := field b "to" in
  let* subject := field b "subject" in
  let* text := field b "text" in
  Ok ("The following message bounced." ++ nl
      ++ "=================" ++ nl
      ++ "From: " ++ from ++ nl
      ++ "To: " ++ to ++ nl
      ++ "Subject: " ++ subject ++ nl ++ nl
      ++ text ++ nl).

(** Modelled from the spec: [UserPref.get_prefs_for_emails], which looks up
    the record of each address or creates one that is not yet stored. *)
Definition lookup_or_create (stored : list UserPref)
    (emails : list (option string))
  : list UserPref :=
  map (fun e => match find (same_email e) stored with
                | Some p => p
                | None => mkPref e false
                end) emails.

Section Bounce.

(** [UserPref.get_prefs_for_emails] is not part of this module; [receive] is
    modelled for any implementation of it over the stored records. *)
Variable get_prefs_for_emails :
  list UserPref -> list (option string) -> list UserPref.

Definition query_prefs (emails : list (option string)) : M (list UserPref) :=
  fun w => (Ok (get_prefs_for_emails (prefs w) emails), w).

Definition first_item {A} (l : list A) : result A :=
  match l with
  | x :: _ => Ok x
  | [] => Raise IndexError
  end.

Definition receive (st : Settings) (bounce_message : BounceNotification)
  : M unit :=
  let email_addr := original_get bounce_message "to" in
  let subject := "Mail to " ++ repr_opt email_addr ++ " bounced" in
  pref_list <- query_prefs [email_addr] ;;
  user_pref <- lift (first_item pref_list) ;;
  let user_pref := mkPref (email user_pref) true in
  put user_pref ;;
  body <- lift (bounce_body bounce_message) ;;
  let message :=
    mkEmail (default_sender st) (JStr (BOUNCE_ESCALATION_ADDR st))
            (JStr subject) None (Some body) None None [] in
  lift (check_initialized message) ;;
  if SEND_EMAIL st then send message else ret tt.

End Bounce.

(** *** Inbound mail *)

(** A parsed message as [email.message.Message] exposes it: the header
    list, the value of [get_content_type()], and either the bytes that
    [get_payload(decode=True)] returns or the sub-parts of a multipart. *)
Inductive Message : Type :=
| Leaf (hdrs : list (string * string)) (ctype : string) (payload : string)
| Multipart (hdrs : list (string * string)) (ctype : string)
            (parts : list Message).

Definition msg_headers (m : Message) : list (string * string) :=
  match m with
  | Leaf hdrs _ _ => hdrs
  | Multipart hdrs _ _ => hdrs
  end.

Definition get_content_type (m : Message) : string :=
  match m with
  | Leaf _ ctype _ => ctype
  | Multipart _ ctype _ => ctype
  end.

(** [get_payload(decode=True)] is [None] on a multipart. *)
Definition get_payload_decoded (m : Message) : option string :=
  match m with
  | Leaf _ _ payload => Some payload
  | Multipart _ _ _ => None
  end.

(** [msg.get(name, failobj)]: the first header of that name. *)
Definition msg_get (m : Message) (name failobj : string) : string :=
  match find (header_named name) (msg_headers m) with
  | Some h => snd h
  | None => failobj
  end.

(** [msg.get_all(name, [])]: every header of that name, in order. *)
Definition msg_get_all (m : Message) (name : string) : list string :=
  map snd (filter (header_named name) (msg_headers m)).

(** [msg.walk()]: the message, then each sub-part's walk, in order. *)
Fixpoint walk (m : Message) : list Message :=
  match m with
  | Leaf _ _ _ => [m]
  | Multipart _ _ parts => m :: flat_map walk parts
  end.

Definition is_text_plain (part : Message) : bool :=
  String.eqb (get_content_type part) "text/plain".

(** Lines 217-224: the loop over the walk, left at the first text part. *)
Fixpoint plain_text_body (parts : list Message) : result string :=
  match parts with
  | [] => Ok ""
  | part :: rest =>
      if is_text_plain part then
        match get_payload_decoded part with
        | Some bytes => decode_utf8 bytes
        | None => Raise AttributeError
        end
      else plain_text_body rest
  end.

(** [a or b] on lists. *)
Definition list_or {A} (a b : list A) : list A :=
  match a with
  | [] => b
  | _ => a
  end.

Definition addr_differs (addr : option string) (expected : string) : bool :=
  match addr with
  | Some a => negb (String.eqb a expected)
  | None => true
  end.

(** [urllib.parse.unquote(addr)] needs a [str]. *)
Definition unquote_addr (unquote : string -> string) (addr : option string)
  : result string :=
  match addr with
  | Some a => Ok (unquote a)
  | None => Raise TypeError
  end.

Definition exceeds (length : option Z) (limit : Z) : result bool :=
  match length with
  | Some n => Ok (limit <? n)
  | None => Raise TypeError
  end.

Fixpoint str_in (s : string) (l : list string) : bool :=
  match l with
  | [] => false
  | x :: l' => String.eqb s x || str_in s l'
  end.

Section Incoming.

(** Standard-library and App Engine functions the handler calls:
    [mail.InboundEmailMessage(data).original], [email.utils.getaddresses]
    and [urllib.parse.unquote]. *)
Variable parse_message : string -> Message.
Variable getaddresses : list string -> list (string * string).
Variable unquote : string -> string.

Definition _extract_addrs (header_value : list string) : list string :=
  map snd (getaddresses header_value).

Definition get_incoming_message (request : Request) : M Message :=
  emit (EvParse (req_data request)) ;;
  ret (parse_message (req_data request)).

Definition task_dict (to_addr from_addr subject in_reply_to body : string)
  : list (string * pyval) :=
  [("to_addr", JStr to_addr); ("from_addr", JStr from_addr);
   ("subject", JStr subject); ("in_reply_to", JStr in_reply_to);
   ("body", JStr body)].

Definition handle_incoming_mail (st : Settings) (request : Request)
    (addr : option string) : M pyval :=
  if addr_differs addr (INBOUND_EMAIL_ADDR st)
  then ret (message_response "Wrong address")
  else
    too_big <- lift (exceeds (content_length request) MAX_BODY_SIZE) ;;
    if too_big : bool then ret (message_response "Too big")
    else
      msg <- get_incoming_message request ;;
      let precedence := msg_get msg "precedence" "" in
      if str_in (lower precedence) ["bulk"; "junk"]
      then ret (message_response "Wrong precedence")
      else
        let from_addrs :=
          list_or (_extract_addrs (msg_get_all msg "x-original-from"))
                  (_extract_addrs (msg_get_all msg "from")) in
        match from_addrs with
        | [] => ret (message_response "Missing From")
        | from_addr :: _ =>
            let in_reply_to := msg_get msg "in-reply-to" "" in
            body <- lift (plain_text_body (walk msg)) ;;
            to_addr <- lift (unquote_addr unquote addr) ;;
            let subject := msg_get msg "subject" "" in
            enqueue_task "/tasks/detect-intent"
              (task_dict to_addr from_addr subject in_reply_to body) ;;
            ret (message_response "Done")
        end.

End Incoming.

End Sendemail.

(** ** api/stars_api.py *)

Module StarsApi.
Import Py Effects.
Local Open Scope result_scope.
Local Open Scope effect_scope.

Record User : Type := mkUser { user_email : string }.

(** What [StarsAPI] reads of its surroundings: the request body, the session
    user, [models.Feature.get_feature] and
    [notifier.FeatureStar.get_user_stars]. *)
Record Handler : Type := mkHandler {
  request_json : option pyval;
  current_user : option User;
  get_feature : Z -> pyval;
  get_user_stars : string -> list Z
}.

Definition abort {A} (code : Z) : M A := lift (Raise (HTTPException code "")).

Definition get_json (self : Handler) : result pyval :=
  match request_json self with
  | Some v => Ok v
  | None => Raise BadRequest
  end.

(** [notifier.FeatureStar.set_star(email, feature_id, starred)]: the call is
    recorded with its arguments. *)
Definition set_star (email : string) (feature_id : Z) (starred : pyval) : M unit :=
  emit (EvSetStar email feature_id starred).

Definition do_get (self : Handler) : pyval :=
  let feature_ids :=
    match current_user self with
    | Some user => get_user_stars self (user_email user)
    | None => []
    end in
  JObj [("featureIds", JList (map JInt feature_ids))].

Definition do_post (self : Handler) : M pyval :=
  json_body <- lift (get_json self) ;;
  feature_id <- lift (dict_get json_body "featureId") ;;
  starred <- lift (dict_get_default json_body "starred" (JBool true)) ;;
  match feature_id with
  | JInt feature_id =>
      let feature := get_feature self feature_id in
      if negb (truthy feature) then abort 404
      else
        match current_user self with
        | None => abort 400
        | Some user =>
            set_star (user_email user) feature_id starred ;;
            ret (message_response "Done")
        end
  | _ => abort 400
  end.

End StarsApi.

(** ** The bounce webhook *)

Module BounceHandler.
Import Py Effects Sendemail.
Local Open Scope effect_scope.

Section Webhook.

(** [mail.BounceNotification(form)] of the App Engine mail API and
    [UserPref.get_prefs_for_emails]; the handler is modelled for any of them. *)
Variable bounce_notification : list (string * string) -> BounceNotification.
Variable get_prefs_for_emails :
  list UserPref -> list (option string) -> list UserPref.

(** [handle_bounce], on the form of the request. *)
Definition handle_bounce (st : Settings) (form : list (string * string))
  : M pyval :=
  receive get_prefs_for_emails st (bounce_notification form) ;;
  ret (message_response "Done").

End Webhook.

End BounceHandler.

(** ** Staging templates, as the specification describes them *)

Module Template.
Import Py.

(** A template as a sequence of literal text and the two placeholders. *)
Inductive piece : Type :=
| Text (s : string)
| UserField
| DomainField.

(** The template string a sequence of pieces stands for. *)
Fixpoint template_of (ps : list piece) : string :=
  match ps with
  | [] => ""
  | Text s :: rest => s ++ template_of rest
  | UserField :: rest => "%(user)s" ++ template_of rest
  | DomainField :: rest => "%(domain)s" ++ template_of rest
  end.

(** Substitution as the specification words it: each placeholder is replaced
    by the part of the address it names. *)
Fixpoint fill (ps : list piece) (user domain : string) : string :=
  match ps with
  | [] => ""
  | Text s :: rest => s ++ fill rest user domain
  | UserField :: rest => user ++ fill rest user domain
  | DomainField :: rest => domain ++ fill rest user domain
  end.

(** Literal text holds no conversion character. *)
Fixpoint literal (ps : list piece) : bool :=
  match ps with
  | [] => true
  | Text s :: rest => negb (contains_char "%" s) && literal rest
  | _ :: rest => literal rest
  end.

End Template.

(** ** Terms the properties are stated in *)

Module Terms.
Import Py Effects Sendemail.

(** The message the task builds once its three required fields are there. *)
Definition built (st : Settings) (items : list (string * pyval))
    (to cc : pyval) : EmailMessage :=
  let references := item items "references" JNull in
  mkEmail (sender_for st (item items "from_user" JNull)) to
          (item items "subject" JNull) (Some (item items "html" JNull)) None
          (when_truthy (item items "reply_to" JNull)) (when_truthy cc)
          (if truthy references
           then [("References", references); ("In-Reply-To", references)]
           else []).

Section Incoming.

Variable parse_message : string -> Message.
Variable getaddresses : list string -> list (string * string).

(** The addresses the handler picks the sender from. *)
Definition from_candidates (msg : Message) : list string :=
  list_or (_extract_addrs getaddresses (msg_get_all msg "x-original-from"))
          (_extract_addrs getaddresses (msg_get_all msg "from")).

(** A message to our address, within the size ceiling, not from an
    autoresponder: the checks that come before the sender is looked for. *)
Definition passes_checks (st : Settings) (request : Request)
    (addr : option string) : Prop :=
  addr = Some (INBOUND_EMAIL_ADDR st)
  /\ (exists n, content_length request = Some n /\ n <= MAX_BODY_SIZE)
  /\ str_in (lower (msg_get (parse_message (req_data request)) "precedence" ""))
            ["bulk"; "junk"] = false.

End Incoming.

(** The world after the handler parsed the message and enqueued [task]. *)
Definition after_enqueue (w : World) (request : Request)
    (task : list (string * pyval)) : World :=
  logged w [EvParse (req_data request); EvEnqueue "/tasks/detect-intent" task].

Definition not_text_plain (p : Message) : bool := negb (is_text_plain p).

(** The world after [p.put()]. *)
Definition after_put (w : World) (p : UserPref) : World :=
  mkWorld (p :: filter (fun q => negb (same_email (email p) q)) (prefs w))
          (trace w ++ [EvPut p]) (mail_up w) (queue_up w).

(** The escalation message [receive] composes for a bounce. *)
Definition escalation (st : Settings) (b : BounceNotification) (body : string)
  : EmailMessage :=
  mkEmail (default_sender st) (JStr (BOUNCE_ESCALATION_ADDR st))
          (JStr ("Mail to " ++ repr_opt (original_get b "to") ++ " bounced"))
          None (Some body) None None [].

(** The outcome [out] of handling [request] in [w] took [a] as the sender:
    the task enqueued carries it, and when the body cannot be read the
    handler fails after parsing, nothing enqueued. *)
Definition uses_sender (msg : Message) (w : World) (request : Request)
    (out : result pyval * World) (a : string) : Prop :=
  match plain_text_body (walk msg) with
  | Ok _ =>
      exists task,
        snd out = after_enqueue w request task
        /\ assoc "from_addr" task = Some (JStr a)
  | Raise e => out = (Raise e, logged w [EvParse (req_data request)])
  end.

(** How many times a character occurs. *)
Fixpoint count_char (c : ascii) (s : string) : nat :=
  match s with
  | EmptyString => O
  | String c' rest =>
      if char_eqb c' c then S (count_char c rest) else count_char c rest
  end.




(** Text made of ASCII characters only. *)
Fixpoint is_ascii (s : string) : bool :=
  match s with
  | EmptyString => true
  | String c rest => (N_of_ascii c <? 128)%N && is_ascii rest
  end.

(** [type(v) == int]: a bool is not an int here. *)
Definition is_int (v : pyval) : bool :=
  match v with
  | JInt _ => true
  | _ => false
  end.

(** The text of the escalation mail for a bounce with these four fields. *)
Definition escalation_text (from to subject text : string) : string :=
  "The following message bounced." ++ nl
  ++ "=================" ++ nl
  ++ "From: " ++ from ++ nl
  ++ "To: " ++ to ++ nl
  ++ "Subject: " ++ subject ++ nl ++ nl
  ++ text ++ nl.

(** The four answers with which inbound mail is turned away. *)
Definition soft_rejects : list pyval :=
  [message_response "Wrong address"; message_response "Too big";
   message_response "Wrong precedence"; message_response "Missing From"].

End Terms.

(** ** Configurations and requests used as examples *)

Module Fixtures.
Import Py Effects Sendemail Terms.

Definition review_list : pyval := JList [JStr "reviews@example.com"].

(** Production: no staging redirection. *)
Definition production : Settings :=
  mkSettings false false true None None review_list "cr-status"
             "ops@example.com" "chromestatus@cr-status.appspotmail.com" 200.

(** Staging: every recipient is redirected through the two templates. *)
Definition staging (to_template cc_template : string) : Settings :=
  mkSettings false false true (Some to_template) (Some cc_template)
             review_list "cr-status-staging"
             "ops@example.com" "chromestatus@cr-status.appspotmail.com" 200.

Definition queue_headers : list (string * string) :=
  [("X-AppEngine-QueueName", "default")].

Definition task_request (items : list (string * pyval)) : Request :=
  mkRequest queue_headers (Some (JObj items)) (Some 0) "".

Definition quiet : World := mkWorld [] [] true true.

(** A reply relayed by a mailing list: an image, then the text in two forms. *)
Definition reply_message : Message :=
  Multipart [("From", "list@googlegroups.com");
             ("X-Original-From", "carol@example.com");
             ("Subject", "Re: Intent to ship");
             ("In-Reply-To", "<msg1@id>")]
            "multipart/mixed"
            [Leaf [] "image/png" "PNG";
             Multipart [] "multipart/alternative"
                       [Leaf [] "text/plain" "Hello";
                        Leaf [] "text/html" "<p>Hello</p>"]].

Definition auto_reply : Message :=
  Leaf [("From", "bot@example.com"); ("Precedence", "Bulk")]
       "text/plain" "Out of office".

Definition parse_fixture (data : string) : Message :=
  if String.eqb data "auto" then auto_reply else reply_message.

(** Header values that hold a bare address each. *)
Definition bare_addresses (values : list string) : list (string * string) :=
  map (fun v => ("", v)) values.

Definition same (s : string) : string := s.

Definition inbound_request (data : string) (size : Z) : Request :=
  mkRequest [] None (Some size) data.

Definition inbound_addr : option string :=
  Some (INBOUND_EMAIL_ADDR production).

Definition bounce_example : BounceNotification :=
  mkBounce [("from", "admin@cr-status.appspotmail.com"); ("to", "user@x.com");
            ("subject", "Review requested"); ("text", "Please review.")].

(** The address is on record, not bounced, and the mail transport is down. *)
Definition transport_down : World :=
  mkWorld [mkPref (Some "other@y.org") false; mkPref (Some "user@x.com") false]
          [] false true.

Definition signed_in (items : list (string * pyval)) : StarsApi.Handler :=
  StarsApi.mkHandler (Some (JObj items))
    (Some (StarsApi.mkUser "user@x.com"))
    (fun id => if id =? 7 then JObj [("name", JStr "Feature seven")] else JNull)
    (fun _ => [7]).

Definition staging_example : Settings :=
  staging "%(user)s+staging@%(domain)s" "%(user)s+cc@%(domain)s".

(** A task with a bare [to] address, one [cc] address and a thread id. *)
Definition example_task : list (string * pyval) :=
  [("to", JStr "a@x.com"); ("cc", JList [JStr "b@y.org"]);
   ("subject", JStr "Review requested"); ("html", JStr "<p>Hello</p>");
   ("references", JStr "<msg1@id>")].




Definition no_header_request (items : list (string * pyval)) : Request :=
  mkRequest [("Content-Type", "application/json")] (Some (JObj items))
            (Some 0) "".

(** Sending switched off, as on a test deployment. *)
Definition muted : Settings :=
  mkSettings false false false None None review_list "cr-status"
             "ops@example.com" "chromestatus@cr-status.appspotmail.com" 200.

(** A message whose only text part is not UTF-8, before one that is. *)
Definition latin1_then_utf8 : Message :=
  Multipart [("From", "ann@example.com")] "multipart/mixed"
            [Leaf [] "text/plain" (String (ascii_of_N 233) "t");
             Leaf [] "text/plain" "ete"].

(** A message with a sender and nothing else. *)
Definition bare_message : Message :=
  Leaf [("From", "ann@example.com")] "text/html" "<p>Hi</p>".

Definition parse_latin1 (data : string) : Message := latin1_then_utf8.

Definition parse_bare (data : string) : Message := bare_message.

Definition form_bounce (form : list (string * string)) : BounceNotification :=
  mkBounce form.

Definition nobody_found (stored : list UserPref) (emails : list (option string))
  : list UserPref := [].

Definition all_up : World :=
  mkWorld [mkPref (Some "other@y.org") false; mkPref (Some "user@x.com") false]
          [] true true.

Definition anonymous (items : list (string * pyval)) : StarsApi.Handler :=
  StarsApi.mkHandler (Some (JObj items)) None
    (fun id => if id =? 7 then JObj [("name", JStr "Feature seven")] else JNull)
    (fun _ => [7]).

(** The message the example task becomes in production. *)
Definition example_message : EmailMessage :=
  built production example_task (JList [JStr "a@x.com"])
        (JList [JStr "b@y.org"]).

End Fixtures.

(** ** Properties of the Python primitives *)

Module PyFacts.
Import Py Template.
Local Open Scope result_scope.

Lemma split_on_absent (sep : ascii) (s : string) :
  contains_char sep s = false -> split_on sep s = [s].
Proof.
  induction s as [|c s IH]; simpl; [reflexivity|].
  intros H. apply orb_false_iff in H as [Hc Hs].
  rewrite Hc, (IH Hs). reflexivity.
Qed.

Lemma split_on_pair (sep : ascii) (u d : string) :
  contains_char sep u = false -> contains_char sep d = false ->
  split_on sep (u ++ String sep d) = [u; d].
Proof.
  intros Hu Hd. induction u as [|c u IH]; simpl.
  - unfold char_eqb. rewrite Ascii.eqb_refl, (split_on_absent _ _ Hd). reflexivity.
  - simpl in Hu. apply orb_false_iff in Hu as [Hc Hu].
    rewrite Hc, (IH Hu). reflexivity.
Qed.

Lemma rmap_append_nil (r : result string) : rmap (String.append "") r = r.
Proof. destruct r; reflexivity. Qed.

Lemma rmap_append_cons (c : ascii) (s : string) (r : result string) :
  prepend c (rmap (String.append s) r) = rmap (String.append (String c s)) r.
Proof. destruct r; reflexivity. Qed.

Lemma pct_go_text (args : list (string * string)) (s rest : string) :
  contains_char "%" s = false ->
  pct_go args FText (s ++ rest) = rmap (String.append s) (pct_go args FText rest).
Proof.
  induction s as [|c s IH]; intros H.
  - simpl. symmetry. apply rmap_append_nil.
  - simpl in H. apply orb_false_iff in H as [Hc Hs].
    simpl. rewrite Hc, (IH Hs). apply rmap_append_cons.
Qed.

Lemma pct_go_user (user domain rest : string) :
  pct_go [("user", user); ("domain", domain)] FText ("%(user)s" ++ rest)
  = rmap (String.append user)
         (pct_go [("user", user); ("domain", domain)] FText rest).
Proof. reflexivity. Qed.

Lemma pct_go_domain (user domain rest : string) :
  pct_go [("user", user); ("domain", domain)] FText ("%(domain)s" ++ rest)
  = rmap (String.append domain)
         (pct_go [("user", user); ("domain", domain)] FText rest).
Proof. reflexivity. Qed.

Lemma append_assoc (a b c : string) : (a ++ b) ++ c = a ++ (b ++ c).
Proof. induction a as [|x a IH]; simpl; [reflexivity | now rewrite IH]. Qed.

(** Formatting a template of pieces is substitution. *)
Lemma pct_format_fill (ps : list piece) (user domain : string) :
  literal ps = true ->
  pct_format (template_of ps) [("user", user); ("domain", domain)]
  = Ok (fill ps user domain).
Proof.
  unfold pct_format. induction ps as [|p ps IH]; intros H; [reflexivity|].
  destruct p as [s| |]; simpl in H.
  - apply andb_true_iff in H as [Hs Hps]. apply negb_true_iff in Hs.
    cbn [template_of fill]. rewrite (pct_go_text _ _ _ Hs), (IH Hps). reflexivity.
  - cbn [template_of fill]. rewrite pct_go_user, (IH H). reflexivity.
  - cbn [template_of fill]. rewrite pct_go_domain, (IH H). reflexivity.
Qed.

Example utf8_examples :
  valid_utf8 (String (ascii_of_N 195) (String (ascii_of_N 169) "t")) = true
  /\ valid_utf8 (String (ascii_of_N 233) "t") = false
  /\ valid_utf8 (String (ascii_of_N 192) (String (ascii_of_N 128) "")) = false
  /\ valid_utf8 (String (ascii_of_N 237) (String (ascii_of_N 160)
                   (String (ascii_of_N 128) ""))) = false.
Proof. repeat split. Qed.

Example repr_examples :
  repr_str "to" = "'to'"
  /\ py_repr (JList [JInt (-12); JStr "it's"; JObj [("k", JBool true)]])
     = "[-12, " ++ String dquote ("it's" ++ String dquote ", {'k': True}]").
Proof. split; reflexivity. Qed.

Lemma rmapM_Forall2 {A B} (f : A -> result B) (l : list A) (l' : list B) :
  rmapM f l = Ok l' -> Forall2 (fun a b => f a = Ok b) l l'.
Proof.
  revert l'. induction l as [|x l IH]; intros l' H; simpl in H.
  - injection H as <-. constructor.
  - destruct (f x) as [y|e] eqn:Hx; [|discriminate]. cbn [rbind] in H.
    destruct (rmapM f l) as [ys|e]; [|discriminate]. cbn [rbind] in H.
    injection H as <-. constructor; [exact Hx | apply IH; reflexivity].
Qed.

Lemma py_iter_nonempty (v : pyval) (xs : list pyval) :
  truthy v = true -> py_iter v = Ok xs -> xs <> [].
Proof.
  intros Ht Hi. destruct v as [| b | n | s | ys | its]; simpl in Hi;
    try discriminate; injection Hi as <-.
  - destruct ys; [discriminate | discriminate].
  - destruct its; [discriminate | discriminate].
Qed.

Lemma truthy_str_list (l : list string) :
  l <> [] -> truthy (JList (map JStr l)) = true.
Proof. destruct l; [congruence | reflexivity]. Qed.

End PyFacts.

(** ** Properties of the outbound mail task *)

Module OutboundFacts.
Import Py Effects Sendemail Template Terms PyFacts Fixtures.
Local Open Scope result_scope.
Local Open Scope effect_scope.

(** C1 (as the code has it): for every address user@domain,
    [format_staging_email] returns the empty string when no staging template
    is configured, and otherwise the template with its %(user)s and
    %(domain)s placeholders replaced by the two parts of the address. *)
Theorem format_staging_email_spec
    (st : Settings) (user domain : string) (ps : list piece) :
  contains_char "@" user = false ->
  contains_char "@" domain = false ->
  literal ps = true ->
  SEND_ALL_EMAIL_TO st = None \/ SEND_ALL_EMAIL_TO st = Some (template_of ps) ->
  format_staging_email st (JStr (user ++ "@" ++ domain))
  = Ok (if truthy_opt (SEND_ALL_EMAIL_TO st) then fill ps user domain else "").
Proof.
  intros Hu Hd Hps Hcfg. unfold format_staging_email.
  destruct (truthy_opt (SEND_ALL_EMAIL_TO st)) eqn:Hon; [|reflexivity].
  destruct Hcfg as [Hnone | Hsome].
  - rewrite Hnone in Hon. discriminate.
  - simpl.
    rewrite (split_on_pair "@" user domain Hu Hd). simpl.
    rewrite Hsome. simpl. unfold user_domain.
    apply pct_format_fill, Hps.
Qed.

Lemma format_staging_email_spec_witness :
  format_staging_email (staging "%(user)s+staging@%(domain)s" "%(user)s+cc@%(domain)s")
                       (JStr "user@domain")
  = Ok "user+staging@domain".
Proof.
  exact (format_staging_email_spec
           (staging "%(user)s+staging@%(domain)s" "%(user)s+cc@%(domain)s")
           "user" "domain" [UserField; Text "+staging@"; DomainField]
           eq_refl eq_refl eq_refl (or_intror eq_refl)).
Defined.

(** C1 as stated fails: with redirection disabled the address is not
    returned, the result is the empty string; and a template written with
    braces is returned as it is, nothing substituted. *)
Lemma format_staging_email_counterexample :
  format_staging_email production (JStr "user@domain") = Ok ""
  /\ format_staging_email production (JStr "user@domain") <> Ok "user@domain"
  /\ format_staging_email (staging "{user}+staging@{domain}" "") (JStr "user@domain")
     <> Ok "user+staging@domain".
Proof.
  split; [reflexivity|]. split; vm_compute; discriminate.
Qed.

Lemma get_param_obj (request : Request) (items : list (string * pyval))
    (name : string) (required : bool) :
  req_json request = Some (JObj items) ->
  get_param request name required
  = if required && negb (truthy (item items name JNull))
    then Raise (HTTPException 400 ("Missing parameter " ++ repr_str name))
    else Ok (item items name JNull).
Proof.
  intros H. unfold get_param, get_json. rewrite H. reflexivity.
Qed.

Lemma sender_for_nonempty (st : Settings) (from_user : pyval) :
  truthy_str (sender_for st from_user) = true.
Proof.
  unfold sender_for, truthy_str, default_sender.
  destruct (truthy from_user) eqn:Hf; [|reflexivity].
  destruct from_user as [| b | n | s | xs | its]; simpl in Hf; try discriminate.
  - destruct b; [reflexivity | discriminate].
  - unfold py_str, py_repr, str_of_Z.
    destruct (NilZero.string_of_int (Z.to_int n)) eqn:Hn; [|reflexivity].
    exfalso. destruct (Z.to_int n) as [u|u]; simpl in Hn.
    + destruct u; simpl in Hn; discriminate.
    + discriminate.
  - destruct s; [discriminate | reflexivity].
  - reflexivity.
  - reflexivity.
Qed.

(** [outbound_message], read off a JSON object: the required fields are
    checked in order, the recipients rewritten, the message assembled. *)
Lemma outbound_message_obj (st : Settings) (request : Request)
    (items : list (string * pyval)) :
  req_json request = Some (JObj items) ->
  outbound_message st request
  = if negb (truthy (item items "to" JNull))
    then Raise (HTTPException 400 "Missing parameter 'to'")
    else if negb (truthy (item items "subject" JNull))
    then Raise (HTTPException 400 "Missing parameter 'subject'")
    else if negb (truthy (item items "html" JNull))
    then Raise (HTTPException 400 "Missing parameter 'html'")
    else
      let* (new_to, new_cc) :=
        staging_rewrite st (as_list (item items "to" JNull))
                           (as_list (item items "cc" JNull)) in
      if truthy new_to then Ok (built st items new_to new_cc)
      else Raise MissingFieldError.
Proof.
  intros H. unfold outbound_message.
  rewrite !(get_param_obj request items _ _ H). unfold get_json. rewrite H.
  cbn [rbind andb].
  destruct (truthy (item items "to" JNull)); [|reflexivity].
  cbn [negb rbind].
  destruct (truthy (item items "subject" JNull)) eqn:Hs; [|reflexivity].
  cbn [negb rbind].
  destruct (truthy (item items "html" JNull)); [|reflexivity].
  cbn [negb rbind].
  destruct (staging_rewrite st _ _) as [[new_to new_cc]|e]; [|reflexivity].
  cbn [rbind]. unfold check_initialized. cbn [sender to subject].
  rewrite sender_for_nonempty, Hs. cbn [andb].
  destruct (truthy new_to); reflexivity.
Qed.

Lemma outbound_message_inv (st : Settings) (request : Request)
    (items : list (string * pyval)) (m : EmailMessage) :
  req_json request = Some (JObj items) ->
  outbound_message st request = Ok m ->
  exists new_to new_cc,
    staging_rewrite st (as_list (item items "to" JNull))
                       (as_list (item items "cc" JNull)) = Ok (new_to, new_cc)
    /\ truthy (item items "to" JNull) = true
    /\ m = built st items new_to new_cc.
Proof.
  intros Hj Hm. rewrite (outbound_message_obj st request items Hj) in Hm.
  destruct (truthy (item items "to" JNull)); [|discriminate].
  destruct (truthy (item items "subject" JNull)); [|discriminate].
  destruct (truthy (item items "html" JNull)); [|discriminate].
  cbn [negb] in Hm.
  destruct (staging_rewrite st _ _) as [[new_to new_cc]|e]; [|discriminate].
  cbn [rbind] in Hm. destruct (truthy new_to); [|discriminate].
  exists new_to, new_cc. repeat split; congruence.
Qed.

(** What the handler does once the message is built. *)
Lemma handler_run (st : Settings) (request : Request) (w : World) :
  handle_outbound_mail_task st request w
  = match require_task_header st request with
    | Raise e => (Raise e, w)
    | Ok _ =>
        match outbound_message st request with
        | Raise e => (Raise e, w)
        | Ok m =>
            match log_preview m with
            | Raise e => (Raise e, w)
            | Ok _ =>
                if SEND_EMAIL st
                then (if mail_up w then Ok (message_response "Done")
                      else Raise TransportError, logged w [EvSend m])
                else (Ok (message_response "Done"), w)
            end
        end
    end.
Proof.
  unfold handle_outbound_mail_task, bind, lift.
  destruct (require_task_header st request); [|reflexivity].
  destruct (outbound_message st request) as [m|e]; [|reflexivity].
  destruct (log_preview m); [|reflexivity].
  destruct (SEND_EMAIL st); [|reflexivity].
  unfold send, bind, emit, ret. cbn [logged mail_up].
  destruct (mail_up w); reflexivity.
Qed.

(** C3: an outbound mail task whose [to] is absent, the empty string or the
    empty list is refused with status 400 and the description
    "Missing parameter 'to'"; the world is left as it was, so no send call
    reaches the mail transport. *)
Theorem empty_to_is_rejected
    (st : Settings) (request : Request) (items : list (string * pyval))
    (w : World) :
  require_task_header st request = Ok tt ->
  req_json request = Some (JObj items) ->
  assoc "to" items = None \/ assoc "to" items = Some (JStr "")
    \/ assoc "to" items = Some (JList []) ->
  handle_outbound_mail_task st request w
    = (Raise (HTTPException 400 "Missing parameter 'to'"), w)
  /\ sends (trace (snd (handle_outbound_mail_task st request w)))
     = sends (trace w).
Proof.
  intros Hh Hj Hto.
  assert (Hrun : handle_outbound_mail_task st request w
                 = (Raise (HTTPException 400 "Missing parameter 'to'"), w)).
  { rewrite handler_run, Hh, (outbound_message_obj st request items Hj).
    unfold item.
    destruct Hto as [H | [H | H]]; rewrite H; reflexivity. }
  split; [exact Hrun | rewrite Hrun; reflexivity].
Qed.

Lemma empty_to_is_rejected_witness :
  handle_outbound_mail_task production
    (task_request [("to", JList []); ("subject", JStr "s"); ("html", JStr "h")])
    quiet
  = (Raise (HTTPException 400 "Missing parameter 'to'"), quiet)
  /\ sends (trace (snd (handle_outbound_mail_task production
        (task_request [("to", JList []); ("subject", JStr "s"); ("html", JStr "h")])
        quiet)))
     = sends (trace quiet).
Proof.
  exact (empty_to_is_rejected production
           (task_request [("to", JList []); ("subject", JStr "s"); ("html", JStr "h")])
           [("to", JList []); ("subject", JStr "s"); ("html", JStr "h")]
           quiet eq_refl eq_refl (or_intror (or_intror eq_refl))).
Defined.

(** A task that was processed had its message built; with sending enabled
    that message is the one handed to the transport. *)
Lemma handler_done_inv (st : Settings) (request : Request) (w w' : World)
    (response : pyval) :
  handle_outbound_mail_task st request w = (Ok response, w') ->
  exists m,
    outbound_message st request = Ok m
    /\ w' = if SEND_EMAIL st then logged w [EvSend m] else w.
Proof.
  rewrite handler_run. intros H.
  destruct (require_task_header st request); [|discriminate].
  destruct (outbound_message st request) as [m|e]; [|discriminate].
  destruct (log_preview m); [|discriminate].
  exists m. split; [reflexivity|].
  destruct (SEND_EMAIL st); [|congruence].
  destruct (mail_up w); [congruence | discriminate].
Qed.

(** C9: when the task carries a non-empty [references] value r, the message
    it builds has the headers References and In-Reply-To, both equal to r;
    it is that message the handler hands to the transport. *)
Theorem references_set_both_headers
    (st : Settings) (request : Request) (items : list (string * pyval))
    (r : pyval) (m : EmailMessage) :
  req_json request = Some (JObj items) ->
  assoc "references" items = Some r ->
  truthy r = true ->
  outbound_message st request = Ok m ->
  headers m = [("References", r); ("In-Reply-To", r)]
  /\ assoc "References" (headers m) = Some r
  /\ assoc "In-Reply-To" (headers m) = Some r
  /\ (forall w w' response,
        SEND_EMAIL st = true ->
        handle_outbound_mail_task st request w = (Ok response, w') ->
        w' = logged w [EvSend m]).
Proof.
  intros Hj Hr Ht Hm.
  destruct (outbound_message_inv st request items m Hj Hm)
    as (new_to & new_cc & _ & _ & Hbuilt).
  assert (Hh : headers m = [("References", r); ("In-Reply-To", r)]).
  { rewrite Hbuilt. unfold built. cbn [headers]. unfold item.
    rewrite Hr, Ht. reflexivity. }
  rewrite Hh. repeat split.
  intros w w' response Hsend Hrun.
  destruct (handler_done_inv st request w w' response Hrun) as (m' & Hm' & ->).
  rewrite Hsend. congruence.
Qed.

Lemma references_set_both_headers_witness :
  headers example_message
    = [("References", JStr "<msg1@id>"); ("In-Reply-To", JStr "<msg1@id>")]
  /\ assoc "References" (headers example_message) = Some (JStr "<msg1@id>")
  /\ assoc "In-Reply-To" (headers example_message) = Some (JStr "<msg1@id>")
  /\ (forall w w' response,
        SEND_EMAIL production = true ->
        handle_outbound_mail_task production (task_request example_task) w
          = (Ok response, w') ->
        w' = logged w [EvSend example_message]).
Proof.
  exact (references_set_both_headers production (task_request example_task)
           example_task (JStr "<msg1@id>") _ eq_refl eq_refl eq_refl eq_refl).
Defined.

Lemma staging_rewrite_exempt (st : Settings) (to0 cc0 : pyval) :
  py_eqb to0 (REVIEW_COMMENT_MAILING_LIST st) = true ->
  staging_rewrite st to0 cc0 = Ok (to0, cc0).
Proof.
  intros H. unfold staging_rewrite. rewrite H, andb_false_r. reflexivity.
Qed.

Lemma staging_rewrite_inv (st : Settings) (to0 cc0 new_to new_cc : pyval) :
  truthy_opt (SEND_ALL_EMAIL_TO st) = true ->
  py_eqb to0 (REVIEW_COMMENT_MAILING_LIST st) = false ->
  staging_rewrite st to0 cc0 = Ok (new_to, new_cc) ->
  exists addrs tos,
    py_iter to0 = Ok addrs
    /\ Forall2 (fun a s => format_staging_email st a = Ok s) addrs tos
    /\ new_to = str_list tos
    /\ if truthy cc0
       then exists cc_addrs ccs,
              py_iter cc0 = Ok cc_addrs
              /\ Forall2 (fun a s => format_cc_email st a = Ok s) cc_addrs ccs
              /\ ccs <> []
              /\ new_cc = str_list ccs
       else new_cc = cc0.
Proof.
  intros Hon Hne H. unfold staging_rewrite in H. rewrite Hon, Hne in H.
  cbn [andb negb] in H.
  destruct (py_iter to0) as [addrs|e] eqn:Hi; [|discriminate]. cbn [rbind] in H.
  destruct (rmapM (format_staging_email st) addrs) as [tos|e] eqn:Hto;
    [|discriminate]. cbn [rbind] in H.
  exists addrs, tos. split; [reflexivity|].
  split; [apply rmapM_Forall2, Hto|].
  destruct (truthy cc0) eqn:Hcc.
  - destruct (py_iter cc0) as [cc_addrs|e] eqn:Hci; [|discriminate].
    cbn [rbind] in H.
    destruct (rmapM (format_cc_email st) cc_addrs) as [ccs|e] eqn:Hcm;
      [|discriminate]. cbn [rbind] in H.
    injection H as <- <-. split; [reflexivity|].
    exists cc_addrs, ccs. split; [reflexivity|].
    pose proof (rmapM_Forall2 _ _ _ Hcm) as HF.
    split; [exact HF|]. split; [|reflexivity].
    intros ->. inversion HF; subst.
    exact (py_iter_nonempty cc0 [] Hcc Hci eq_refl).
  - injection H as <- <-. split; reflexivity.
Qed.

(** C2: a task processed while a staging template is configured.  When the
    recipients equal REVIEW_COMMENT_MAILING_LIST the message keeps the [to]
    and [cc] of the task; otherwise every [to] address is replaced by
    [format_staging_email] of it and every [cc] address by the CC_ALL_EMAIL_TO
    template filled from it. *)
Theorem staging_rewrites_recipients
    (st : Settings) (request : Request) (items : list (string * pyval))
    (w w' : World) (response : pyval) :
  req_json request = Some (JObj items) ->
  truthy_opt (SEND_ALL_EMAIL_TO st) = true ->
  handle_outbound_mail_task st request w = (Ok response, w') ->
  exists m,
    outbound_message st request = Ok m
    /\ w' = (if SEND_EMAIL st then logged w [EvSend m] else w)
    /\ let to0 := as_list (item items "to" JNull) in
       let cc0 := as_list (item items "cc" JNull) in
       if py_eqb to0 (REVIEW_COMMENT_MAILING_LIST st)
       then to m = to0 /\ cc m = when_truthy cc0
       else
         exists addrs tos,
           py_iter to0 = Ok addrs
           /\ Forall2 (fun a s => format_staging_email st a = Ok s) addrs tos
           /\ to m = str_list tos
           /\ if truthy cc0
              then exists cc_addrs ccs,
                     py_iter cc0 = Ok cc_addrs
                     /\ Forall2 (fun a s => format_cc_email st a = Ok s)
                                cc_addrs ccs
                     /\ cc m = Some (str_list ccs)
              else cc m = None.
Proof.
  intros Hj Hon Hrun.
  destruct (handler_done_inv st request w w' response Hrun) as (m & Hm & Hw).
  exists m. split; [exact Hm|]. split; [exact Hw|].
  destruct (outbound_message_inv st request items m Hj Hm)
    as (new_to & new_cc & Hrw & _ & ->).
  cbv zeta. unfold built. cbn [to cc].
  destruct (py_eqb (as_list (item items "to" JNull))
                   (REVIEW_COMMENT_MAILING_LIST st)) eqn:Heq.
  - rewrite (staging_rewrite_exempt st _ _ Heq) in Hrw.
    injection Hrw as <- <-. split; reflexivity.
  - destruct (staging_rewrite_inv st _ _ _ _ Hon Heq Hrw)
      as (addrs & tos & Hi & HF & -> & Hcc).
    exists addrs, tos. repeat (split; [assumption || reflexivity|]).
    destruct (truthy (as_list (item items "cc" JNull))) eqn:Htc.
    + destruct Hcc as (cc_addrs & ccs & Hci & HFc & Hne & ->).
      exists cc_addrs, ccs. repeat (split; [assumption|]).
      unfold when_truthy, str_list. rewrite (truthy_str_list ccs Hne).
      reflexivity.
    + subst new_cc. unfold when_truthy. rewrite Htc. reflexivity.
Qed.

Lemma staging_rewrites_recipients_witness :
  exists m,
    outbound_message staging_example (task_request example_task) = Ok m
    /\ logged quiet [EvSend (built staging_example example_task
                                (JList [JStr "a+staging@x.com"])
                                (JList [JStr "b+cc@y.org"]))]
       = (if SEND_EMAIL staging_example then logged quiet [EvSend m] else quiet)
    /\ let to0 := as_list (item example_task "to" JNull) in
       let cc0 := as_list (item example_task "cc" JNull) in
       if py_eqb to0 (REVIEW_COMMENT_MAILING_LIST staging_example)
       then to m = to0 /\ cc m = when_truthy cc0
       else
         exists addrs tos,
           py_iter to0 = Ok addrs
           /\ Forall2 (fun a s => format_staging_email staging_example a = Ok s)
                      addrs tos
           /\ to m = str_list tos
           /\ if truthy cc0
              then exists cc_addrs ccs,
                     py_iter cc0 = Ok cc_addrs
                     /\ Forall2 (fun a s => format_cc_email staging_example a = Ok s)
                                cc_addrs ccs
                     /\ cc m = Some (str_list ccs)
              else cc m = None.
Proof.
  exact (staging_rewrites_recipients staging_example
           (task_request example_task) example_task quiet
           (logged quiet
              [EvSend (built staging_example example_task
                         (JList [JStr "a+staging@x.com"])
                         (JList [JStr "b+cc@y.org"]))])
           (message_response "Done") eq_refl eq_refl eq_refl).
Defined.

(** The example task in staging: both recipients are redirected. *)
Example staging_example_message :
  outbound_message staging_example (task_request example_task)
  = Ok (built staging_example example_task
          (JList [JStr "a+staging@x.com"]) (JList [JStr "b+cc@y.org"])).
Proof. reflexivity. Qed.

(** The same task addressed to the review list keeps its recipients. *)
Example exempt_example_message :
  outbound_message staging_example
    (task_request [("to", JList [JStr "reviews@example.com"]);
                   ("cc", JStr "b@y.org");
                   ("subject", JStr "s"); ("html", JStr "h")])
  = Ok (built staging_example
          [("to", JList [JStr "reviews@example.com"]); ("cc", JStr "b@y.org");
           ("subject", JStr "s"); ("html", JStr "h")]
          (JList [JStr "reviews@example.com"]) (JList [JStr "b@y.org"])).
Proof. reflexivity. Qed.

End OutboundFacts.

(** ** Properties of inbound mail *)

Module IncomingFacts.
Import Py Effects Sendemail Terms Fixtures.
Local Open Scope result_scope.
Local Open Scope effect_scope.

Lemma enqueued_app (t u : list event) :
  enqueued (t ++ u) = (enqueued t ++ enqueued u)%list.
Proof. unfold enqueued. apply flat_map_app. Qed.

Lemma parses_app (t u : list event) :
  parses (t ++ u) = (parses t ++ parses u)%list.
Proof. unfold parses. apply flat_map_app. Qed.

Lemma logged_logged (w : World) (a b : list event) :
  logged (logged w a) b = logged w (a ++ b).
Proof. unfold logged. cbn. now rewrite <- app_assoc. Qed.

(** The loop passes over the parts that are not text/plain. *)
Lemma plain_text_body_skip (pre rest : list Message) :
  forallb not_text_plain pre = true ->
  plain_text_body (pre ++ rest) = plain_text_body rest.
Proof.
  induction pre as [|p pre IH]; intros H; [reflexivity|].
  simpl in H. apply andb_true_iff in H as [Hp Hpre].
  apply negb_true_iff in Hp. simpl. rewrite Hp. apply IH, Hpre.
Qed.

Lemma plain_text_body_none (parts : list Message) :
  forallb not_text_plain parts = true ->
  plain_text_body parts = Ok "".
Proof.
  intros H. rewrite <- (app_nil_r parts).
  rewrite (plain_text_body_skip parts [] H). reflexivity.
Qed.

Lemma plain_text_body_first (pre post : list Message) (p : Message)
    (bytes : string) :
  forallb not_text_plain pre = true ->
  is_text_plain p = true ->
  get_payload_decoded p = Some bytes ->
  valid_utf8 bytes = true ->
  plain_text_body (pre ++ p :: post) = Ok bytes.
Proof.
  intros Hpre Hp Hb Hv. rewrite (plain_text_body_skip pre _ Hpre).
  simpl. rewrite Hp, Hb. unfold decode_utf8. rewrite Hv. reflexivity.
Qed.

Section Handler.

Variable parse_message : string -> Message.
Variable getaddresses : list string -> list (string * string).
Variable unquote : string -> string.

Local Abbreviation handle :=
  (handle_incoming_mail parse_message getaddresses unquote).
Local Abbreviation candidates := (from_candidates getaddresses).
Local Abbreviation checked := (passes_checks parse_message).

(** The handler on a message to our address, step by step. *)
Lemma incoming_run (st : Settings) (request : Request) (w : World) :
  handle st request (Some (INBOUND_EMAIL_ADDR st)) w
  = match content_length request with
    | None => (Raise TypeError, w)
    | Some n =>
        if MAX_BODY_SIZE <? n then (Ok (message_response "Too big"), w)
        else
          let msg := parse_message (req_data request) in
          let parsed := logged w [EvParse (req_data request)] in
          if str_in (lower (msg_get msg "precedence" "")) ["bulk"; "junk"]
          then (Ok (message_response "Wrong precedence"), parsed)
          else
            match candidates msg with
            | [] => (Ok (message_response "Missing From"), parsed)
            | from_addr :: _ =>
                match plain_text_body (walk msg) with
                | Raise e => (Raise e, parsed)
                | Ok body =>
                    (if queue_up w then Ok (message_response "Done")
                     else Raise TransportError,
                     after_enqueue w request
                       (task_dict (unquote (INBOUND_EMAIL_ADDR st)) from_addr
                                  (msg_get msg "subject" "")
                                  (msg_get msg "in-reply-to" "") body))
                end
            end
    end.
Proof.
  unfold handle_incoming_mail, addr_differs. rewrite String.eqb_refl.
  cbn [negb]. unfold bind at 1, lift at 1, exceeds.
  destruct (content_length request) as [n|]; [|reflexivity].
  destruct (MAX_BODY_SIZE <? n); [reflexivity|].
  unfold get_incoming_message. unfold bind at 1 2, emit, ret at 1.
  cbv zeta.
  destruct (str_in _ _); [reflexivity|].
  unfold from_candidates.
  destruct (list_or _ _) as [|from_addr rest]; [reflexivity|].
  unfold bind at 1, lift at 1.
  destruct (plain_text_body _) as [body|e]; [|reflexivity].
  unfold bind at 1, lift at 1, unquote_addr.
  unfold enqueue_task, bind, emit, ret, after_enqueue.
  rewrite logged_logged. cbn [logged queue_up app].
  destruct (queue_up w); reflexivity.
Qed.

(** C4: a message to the inbound address whose content length is above
    20*1024*1024 bytes gets the answer {'message': 'Too big'}; the world is
    unchanged: the body was not parsed and no task was enqueued. *)
Theorem oversized_is_too_big
    (st : Settings) (request : Request) (w : World) (n : Z) :
  content_length request = Some n ->
  20 * 1024 * 1024 < n ->
  handle st request (Some (INBOUND_EMAIL_ADDR st)) w
    = (Ok (message_response "Too big"), w)
  /\ parses (trace (snd (handle st request (Some (INBOUND_EMAIL_ADDR st)) w)))
     = parses (trace w)
  /\ enqueued (trace (snd (handle st request (Some (INBOUND_EMAIL_ADDR st)) w)))
     = enqueued (trace w).
Proof.
  intros Hn Hbig.
  assert (Hrun : handle st request (Some (INBOUND_EMAIL_ADDR st)) w
                 = (Ok (message_response "Too big"), w)).
  { rewrite incoming_run, Hn.
    replace (MAX_BODY_SIZE <? n) with true; [reflexivity|].
    symmetry. apply Z.ltb_lt. unfold MAX_BODY_SIZE. exact Hbig. }
  rewrite Hrun. repeat split.
Qed.

(** C5: a message to the inbound address, within the size ceiling, whose
    Precedence header lowercased is bulk or junk gets the answer
    {'message': 'Wrong precedence'} and no task is enqueued. *)
Theorem autoresponder_is_refused
    (st : Settings) (request : Request) (w : World) (n : Z) :
  content_length request = Some n ->
  n <= MAX_BODY_SIZE ->
  lower (msg_get (parse_message (req_data request)) "precedence" "") = "bulk"
  \/ lower (msg_get (parse_message (req_data request)) "precedence" "") = "junk" ->
  fst (handle st request (Some (INBOUND_EMAIL_ADDR st)) w)
    = Ok (message_response "Wrong precedence")
  /\ enqueued (trace (snd (handle st request (Some (INBOUND_EMAIL_ADDR st)) w)))
     = enqueued (trace w).
Proof.
  intros Hn Hle Hp. rewrite incoming_run, Hn.
  replace (MAX_BODY_SIZE <? n) with false
    by (symmetry; apply Z.ltb_ge; exact Hle).
  cbv zeta.
  replace (str_in _ _) with true
    by (destruct Hp as [-> | ->]; reflexivity).
  split; [reflexivity|]. cbn [snd logged trace].
  rewrite enqueued_app. cbn. apply app_nil_r.
Qed.

Lemma checked_run (st : Settings) (request : Request) (addr : option string)
    (w : World) :
  checked st request addr ->
  handle st request addr w
  = let msg := parse_message (req_data request) in
    let parsed := logged w [EvParse (req_data request)] in
    match candidates msg with
    | [] => (Ok (message_response "Missing From"), parsed)
    | from_addr :: _ =>
        match plain_text_body (walk msg) with
        | Raise e => (Raise e, parsed)
        | Ok body =>
            (if queue_up w then Ok (message_response "Done")
             else Raise TransportError,
             after_enqueue w request
               (task_dict (unquote (INBOUND_EMAIL_ADDR st)) from_addr
                          (msg_get msg "subject" "")
                          (msg_get msg "in-reply-to" "") body))
        end
    end.
Proof.
  intros (-> & (n & Hn & Hle) & Hp). rewrite incoming_run, Hn.
  replace (MAX_BODY_SIZE <? n) with false
    by (symmetry; apply Z.ltb_ge; exact Hle).
  cbv zeta. rewrite Hp. reflexivity.
Qed.

Lemma uses_first (st : Settings) (request : Request) (addr : option string)
    (w : World) (a : string) (rest : list string) :
  checked st request addr ->
  candidates (parse_message (req_data request)) = a :: rest ->
  uses_sender (parse_message (req_data request)) w request
              (handle st request addr w) a.
Proof.
  intros Hc Ha. rewrite (checked_run st request addr w Hc). cbv zeta.
  rewrite Ha. unfold uses_sender.
  destruct (plain_text_body _) as [body|e]; [|reflexivity].
  eexists. split; reflexivity.
Qed.

(** C6: for a message that passed the checks up to the precedence test, the
    sender is the first address found in the X-Original-From headers; when
    these give none, the first found in the From headers; when neither gives
    one the answer is {'message': 'Missing From'} and no task is enqueued. *)
Theorem sender_prefers_original_from
    (st : Settings) (request : Request) (addr : option string) (w : World) :
  checked st request addr ->
  let msg := parse_message (req_data request) in
  let original := _extract_addrs getaddresses (msg_get_all msg "x-original-from") in
  let plain := _extract_addrs getaddresses (msg_get_all msg "from") in
  let out := handle st request addr w in
  (forall a rest, original = a :: rest -> uses_sender msg w request out a)
  /\ (forall a rest, original = [] -> plain = a :: rest ->
      uses_sender msg w request out a)
  /\ (original = [] -> plain = [] ->
      fst out = Ok (message_response "Missing From")
      /\ enqueued (trace (snd out)) = enqueued (trace w)).
Proof.
  intros Hc msg original plain out. subst out.
  split; [|split].
  - intros a rest Ho. apply (uses_first st request addr w a rest Hc).
    unfold from_candidates. fold msg. fold original. rewrite Ho. reflexivity.
  - intros a rest Ho Hp. apply (uses_first st request addr w a rest Hc).
    unfold from_candidates. fold msg. fold original. fold plain.
    rewrite Ho, Hp. reflexivity.
  - intros Ho Hp.
    rewrite (checked_run st request addr w Hc). cbv zeta.
    unfold from_candidates. fold msg. fold original. fold plain.
    rewrite Ho, Hp. cbn [list_or fst snd logged trace].
    split; [reflexivity|].
    rewrite enqueued_app. cbn. apply app_nil_r.
Qed.

(** C7: for a message that passed every check, the task enqueued has as its
    body the decoded payload of the first text/plain part of the walk,
    whatever parts of other types come before or after it, and the empty
    string when the walk has no text/plain part. *)
Theorem body_is_first_text_plain
    (st : Settings) (request : Request) (addr : option string) (w : World)
    (a : string) (rest : list string) :
  checked st request addr ->
  candidates (parse_message (req_data request)) = a :: rest ->
  let msg := parse_message (req_data request) in
  let out := handle st request addr w in
  (forall pre p post bytes,
      walk msg = (pre ++ p :: post)%list ->
      forallb not_text_plain pre = true ->
      is_text_plain p = true ->
      get_payload_decoded p = Some bytes ->
      valid_utf8 bytes = true ->
      exists task,
        snd out = after_enqueue w request task
        /\ assoc "body" task = Some (JStr bytes))
  /\ (forallb not_text_plain (walk msg) = true ->
      exists task,
        snd out = after_enqueue w request task
        /\ assoc "body" task = Some (JStr "")).
Proof.
  intros Hc Ha msg out. subst out.
  rewrite (checked_run st request addr w Hc). cbv zeta. rewrite Ha.
  fold msg. split.
  - intros pre p post bytes Hw Hpre Hp Hb Hv.
    rewrite Hw, (plain_text_body_first pre post p bytes Hpre Hp Hb Hv).
    eexists. split; reflexivity.
  - intros Hnone. rewrite (plain_text_body_none _ Hnone).
    eexists. split; reflexivity.
Qed.

End Handler.

Lemma oversized_is_too_big_witness :
  handle_incoming_mail parse_fixture bare_addresses same production
    (inbound_request "reply" 20971521) inbound_addr quiet
  = (Ok (message_response "Too big"), quiet)
  /\ parses (trace (snd (handle_incoming_mail parse_fixture bare_addresses same
                           production (inbound_request "reply" 20971521)
                           inbound_addr quiet)))
     = parses (trace quiet)
  /\ enqueued (trace (snd (handle_incoming_mail parse_fixture bare_addresses same
                             production (inbound_request "reply" 20971521)
                             inbound_addr quiet)))
     = enqueued (trace quiet).
Proof.
  apply (oversized_is_too_big parse_fixture bare_addresses same production
           (inbound_request "reply" 20971521) quiet 20971521).
  - reflexivity.
  - reflexivity.
Defined.

Lemma autoresponder_is_refused_witness :
  fst (handle_incoming_mail parse_fixture bare_addresses same production
         (inbound_request "auto" 64) inbound_addr quiet)
    = Ok (message_response "Wrong precedence")
  /\ enqueued (trace (snd (handle_incoming_mail parse_fixture bare_addresses same
                             production (inbound_request "auto" 64)
                             inbound_addr quiet)))
     = enqueued (trace quiet).
Proof.
  apply (autoresponder_is_refused parse_fixture bare_addresses same production
           (inbound_request "auto" 64) quiet 64).
  - reflexivity.
  - vm_compute. discriminate.
  - left. reflexivity.
Defined.

Lemma reply_passes_checks :
  passes_checks parse_fixture production (inbound_request "reply" 512)
                inbound_addr.
Proof.
  split; [reflexivity|]. split; [|reflexivity].
  exists 512. split; [reflexivity|]. vm_compute. discriminate.
Defined.

Lemma sender_prefers_original_from_witness :
  uses_sender reply_message quiet (inbound_request "reply" 512)
    (handle_incoming_mail parse_fixture bare_addresses same production
       (inbound_request "reply" 512) inbound_addr quiet)
    "carol@example.com".
Proof.
  pose proof (sender_prefers_original_from parse_fixture bare_addresses same
                production (inbound_request "reply" 512) inbound_addr quiet
                reply_passes_checks) as H.
  cbv zeta in H. destruct H as [H _].
  exact (H "carol@example.com" [] eq_refl).
Defined.

Lemma body_is_first_text_plain_witness :
  exists task,
    snd (handle_incoming_mail parse_fixture bare_addresses same production
           (inbound_request "reply" 512) inbound_addr quiet)
    = after_enqueue quiet (inbound_request "reply" 512) task
    /\ assoc "body" task = Some (JStr "Hello").
Proof.
  pose proof (body_is_first_text_plain parse_fixture bare_addresses same
                production (inbound_request "reply" 512) inbound_addr quiet
                "carol@example.com" [] reply_passes_checks eq_refl) as H.
  cbv zeta in H. destruct H as [H _].
  exact (H [reply_message; Leaf [] "image/png" "PNG";
            Multipart [] "multipart/alternative"
                      [Leaf [] "text/plain" "Hello";
                       Leaf [] "text/html" "<p>Hello</p>"]]
           (Leaf [] "text/plain" "Hello")
           [Leaf [] "text/html" "<p>Hello</p>"]
           "Hello" eq_refl eq_refl eq_refl eq_refl eq_refl).
Defined.

(** When the text part is not UTF-8 the handler fails after parsing and
    no task is enqueued. *)
Example latin1_body_is_not_enqueued :
  handle_incoming_mail
    (fun _ => Leaf [("From", "ann@example.com")] "text/plain"
                   (String (ascii_of_N 233) "t" ++ "e"))
    bare_addresses same production (inbound_request "reply" 512)
    inbound_addr quiet
  = (Raise UnicodeDecodeError,
     logged quiet [EvParse "reply"]).
Proof. reflexivity. Qed.

(** The relayed reply, handled: one task, sender and body as expected. *)
Example reply_is_enqueued :
  handle_incoming_mail parse_fixture bare_addresses same production
    (inbound_request "reply" 512) inbound_addr quiet
  = (Ok (message_response "Done"),
     after_enqueue quiet (inbound_request "reply" 512)
       (task_dict "chromestatus@cr-status.appspotmail.com" "carol@example.com"
                  "Re: Intent to ship" "<msg1@id>" "Hello")).
Proof. reflexivity. Qed.

End IncomingFacts.

(** ** Properties of bounce handling *)

Module BounceFacts.
Import Py Effects Sendemail Terms Fixtures.
Local Open Scope result_scope.
Local Open Scope effect_scope.

Lemma opt_str_eqb_refl (a : option string) : opt_str_eqb a a = true.
Proof. destruct a as [s|]; [apply String.eqb_refl | reflexivity]. Qed.

Lemma stored_after_put (w : World) (p : UserPref) :
  stored_pref (after_put w p) (email p) = Some p.
Proof.
  unfold stored_pref, after_put, same_email. cbn [prefs find].
  rewrite opt_str_eqb_refl. reflexivity.
Qed.

Lemma send_run (m : EmailMessage) (w : World) :
  send m w
  = (if mail_up w then Ok tt else Raise TransportError, logged w [EvSend m]).
Proof.
  unfold send, bind, emit. cbn [logged mail_up].
  destruct (mail_up w); reflexivity.
Qed.

Section Receive.

Variable get_prefs_for_emails :
  list UserPref -> list (option string) -> list UserPref.

Local Abbreviation receive := (Sendemail.receive get_prefs_for_emails).

(** [receive], step by step. *)
Lemma receive_run (st : Settings) (b : BounceNotification) (w : World) :
  receive st b w
  = match get_prefs_for_emails (prefs w) [original_get b "to"] with
    | [] => (Raise IndexError, w)
    | p :: _ =>
        let marked := after_put w (mkPref (email p) true) in
        match bounce_body b with
        | Raise e => (Raise e, marked)
        | Ok body =>
            match check_initialized (escalation st b body) with
            | Raise e => (Raise e, marked)
            | Ok _ =>
                if SEND_EMAIL st
                then (if mail_up w then Ok tt else Raise TransportError,
                      logged marked [EvSend (escalation st b body)])
                else (Ok tt, marked)
            end
        end
    end.
Proof.
  unfold Sendemail.receive, query_prefs. unfold bind at 1.
  destruct (get_prefs_for_emails _ _) as [|p ps]; [reflexivity|].
  unfold bind at 1, lift at 1, first_item.
  unfold bind at 1, put. unfold bind at 1, emit.
  cbn [logged prefs trace mail_up queue_up email].
  fold (after_put w (mkPref (email p) true)). cbv zeta.
  unfold bind at 1, lift at 1.
  destruct (bounce_body b) as [body|e]; [|reflexivity].
  fold (escalation st b body).
  unfold bind at 1, lift at 1.
  destruct (check_initialized _); [|reflexivity].
  destruct (SEND_EMAIL st); [|reflexivity].
  rewrite send_run. reflexivity.
Qed.

(** C8: when the bounced address resolves to a preference record, [receive]
    persists that record with bounced set before any send call, and it stays
    persisted whatever happens next; in particular when the escalation send
    fails the record stored for the address has bounced = true. *)
Theorem bounce_is_persisted_before_escalation
    (st : Settings) (b : BounceNotification) (w : World)
    (p : UserPref) (ps : list UserPref) :
  get_prefs_for_emails (prefs w) [original_get b "to"] = p :: ps ->
  let marked := mkPref (email p) true in
  let out := receive st b w in
  stored_pref (snd out) (email p) = Some marked
  /\ (exists later,
        trace (snd out) = (trace w ++ EvPut marked :: later)%list
        /\ (later = [] \/ exists m, later = [EvSend m]))
  /\ (forall body,
        SEND_EMAIL st = true -> mail_up w = false ->
        bounce_body b = Ok body -> BOUNCE_ESCALATION_ADDR st <> "" ->
        fst out = Raise TransportError
        /\ trace (snd out)
           = (trace w ++ [EvPut marked; EvSend (escalation st b body)])%list
        /\ stored_pref (snd out) (email p) = Some marked).
Proof.
  intros Hp marked out. subst out. rewrite receive_run, Hp. cbv zeta.
  fold marked.
  assert (Hstored : forall es,
             stored_pref (logged (after_put w marked) es) (email p)
             = Some marked).
  { intros es. exact (stored_after_put w marked). }
  split; [|split].
  - destruct (bounce_body b) as [body|e]; [|exact (Hstored [])].
    destruct (check_initialized _); [|exact (Hstored [])].
    destruct (SEND_EMAIL st); [apply Hstored | exact (Hstored [])].
  - destruct (bounce_body b) as [body|e];
      [|exists []; split; [reflexivity | left; reflexivity]].
    destruct (check_initialized _);
      [|exists []; split; [reflexivity | left; reflexivity]].
    destruct (SEND_EMAIL st);
      [|exists []; split; [reflexivity | left; reflexivity]].
    exists [EvSend (escalation st b body)]. split.
    + cbn [snd logged after_put trace]. rewrite <- app_assoc. reflexivity.
    + right. eexists. reflexivity.
  - intros body Hsend Hdown Hbody Haddr. rewrite Hbody, Hsend, Hdown.
    assert (Hinit : check_initialized (escalation st b body) = Ok tt).
    { unfold check_initialized, escalation. cbn [sender to subject].
      unfold truthy, truthy_str, default_sender. cbn.
      destruct (BOUNCE_ESCALATION_ADDR st); [congruence | reflexivity]. }
    rewrite Hinit. split; [reflexivity|]. split.
    + cbn [snd logged after_put trace]. rewrite <- app_assoc. reflexivity.
    + apply Hstored.
Qed.

End Receive.

Lemma bounce_is_persisted_before_escalation_witness :
  fst (receive lookup_or_create production bounce_example transport_down)
    = Raise TransportError
  /\ stored_pref
       (snd (receive lookup_or_create production bounce_example transport_down))
       (Some "user@x.com")
     = Some (mkPref (Some "user@x.com") true).
Proof.
  pose proof (bounce_is_persisted_before_escalation lookup_or_create production
                bounce_example transport_down
                (mkPref (Some "user@x.com") false) [] eq_refl) as H.
  cbv zeta in H. destruct H as (_ & _ & H).
  destruct (H _ eq_refl eq_refl eq_refl) as (Hfail & _ & Hstored).
  - discriminate.
  - split; [exact Hfail | exact Hstored].
Defined.

End BounceFacts.

(** ** Properties of the star-toggle API *)

Module StarsFacts.
Import Py Effects StarsApi Fixtures.
Local Open Scope effect_scope.

(** C10: a POST by a signed-in user whose body names an existing feature by
    an integer featureId and has no starred field sets the star: the call is
    set_star(email, featureId, True), the answer is {'message': 'Done'}, and
    the outcome is the one of the same request with starred given as true. *)
Theorem starred_defaults_to_true
    (self : Handler) (items : list (string * pyval)) (feature_id : Z)
    (user : User) (w : World) :
  request_json self = Some (JObj items) ->
  assoc "featureId" items = Some (JInt feature_id) ->
  truthy (get_feature self feature_id) = true ->
  current_user self = Some user ->
  assoc "starred" items = None ->
  do_post self w
    = (Ok (message_response "Done"),
       logged w [EvSetStar (user_email user) feature_id (JBool true)])
  /\ do_post self w
     = do_post (mkHandler (Some (JObj (("starred", JBool true) :: items)))
                          (current_user self) (get_feature self)
                          (get_user_stars self)) w.
Proof.
  intros Hj Hid Hf Hu Hs.
  unfold do_post, get_json, bind, lift, dict_get, dict_get_default, item.
  cbn [request_json current_user get_feature].
  rewrite Hj. cbn [assoc String.eqb Ascii.eqb Bool.eqb].
  rewrite Hid, Hs, Hf, Hu. cbn [negb]. split; reflexivity.
Qed.

Lemma starred_defaults_to_true_witness :
  do_post (signed_in [("featureId", JInt 7)]) quiet
    = (Ok (message_response "Done"),
       logged quiet [EvSetStar "user@x.com" 7 (JBool true)])
  /\ do_post (signed_in [("featureId", JInt 7)]) quiet
     = do_post (signed_in [("starred", JBool true); ("featureId", JInt 7)]) quiet.
Proof.
  exact (starred_defaults_to_true (signed_in [("featureId", JInt 7)])
           [("featureId", JInt 7)] 7 (mkUser "user@x.com") quiet
           eq_refl eq_refl eq_refl eq_refl eq_refl).
Defined.

(** An explicit [starred: false] clears the star instead. *)
Example unstar_example :
  do_post (signed_in [("featureId", JInt 7); ("starred", JBool false)]) quiet
  = (Ok (message_response "Done"),
     logged quiet [EvSetStar "user@x.com" 7 (JBool false)]).
Proof. reflexivity. Qed.

(** A featureId that is not an [int], [true] included, is refused. *)
Example bool_feature_id_example :
  do_post (signed_in [("featureId", JBool true)]) quiet
  = (Raise (HTTPException 400 ""), quiet).
Proof. reflexivity. Qed.

End StarsFacts.

(** ** More on the outbound mail task *)

Module OutboundMore.
Import Py Effects Sendemail Template Terms PyFacts Fixtures OutboundFacts.
Local Open Scope result_scope.
Local Open Scope effect_scope.

Lemma outbound_message_json_only (st : Settings) (r1 r2 : Request) :
  req_json r1 = req_json r2 ->
  outbound_message st r1 = outbound_message st r2.
Proof.
  intros H. unfold outbound_message, get_param, get_json. rewrite H.
  reflexivity.
Qed.

(** X1: outside unit-test and development mode, a request without the
    X-AppEngine-QueueName header is refused with status 403 whatever its
    body, and the world is left as it was. *)
Theorem task_header_gate (st : Settings) (request : Request) (w : World) :
  UNIT_TEST_MODE st = false ->
  DEV_MODE st = false ->
  has_header "X-AppEngine-QueueName" (req_headers request) = false ->
  handle_outbound_mail_task st request w
  = (Raise (HTTPException 403 "Lacking X-AppEngine-QueueName header"), w).
Proof.
  intros Ht Hd Hh. rewrite handler_run. unfold require_task_header.
  rewrite Ht, Hd, Hh. reflexivity.
Qed.

Lemma task_header_gate_witness :
  handle_outbound_mail_task production (no_header_request example_task) quiet
  = (Raise (HTTPException 403 "Lacking X-AppEngine-QueueName header"), quiet).
Proof.
  exact (task_header_gate production (no_header_request example_task) quiet
           eq_refl eq_refl eq_refl).
Defined.

(** X2: in unit-test or development mode the headers play no part: two
    requests with the same JSON body have the same outcome. *)
Theorem test_mode_ignores_headers
    (st : Settings) (r1 r2 : Request) (w : World) :
  UNIT_TEST_MODE st || DEV_MODE st = true ->
  req_json r1 = req_json r2 ->
  handle_outbound_mail_task st r1 w = handle_outbound_mail_task st r2 w.
Proof.
  intros Hm Hj. rewrite !handler_run. unfold require_task_header.
  rewrite Hm, (outbound_message_json_only st r1 r2 Hj). reflexivity.
Qed.

Lemma test_mode_ignores_headers_witness :
  handle_outbound_mail_task
    (mkSettings true false true None None review_list "cr-status"
                "ops@example.com" "in@cr-status.appspotmail.com" 200)
    (no_header_request example_task) quiet
  = handle_outbound_mail_task
      (mkSettings true false true None None review_list "cr-status"
                  "ops@example.com" "in@cr-status.appspotmail.com" 200)
      (task_request example_task) quiet.
Proof.
  exact (test_mode_ignores_headers
           (mkSettings true false true None None review_list "cr-status"
                       "ops@example.com" "in@cr-status.appspotmail.com" 200)
           (no_header_request example_task) (task_request example_task) quiet
           eq_refl eq_refl).
Defined.

(** X3: with [to] present, a task whose [subject] or [html] is missing or
    empty (any falsy value: null, "", 0, false, [], {}) is refused with status
    400 naming the first of the two that is missing; nothing is sent. *)
Theorem missing_subject_or_html_is_rejected
    (st : Settings) (request : Request) (items : list (string * pyval))
    (w : World) :
  require_task_header st request = Ok tt ->
  req_json request = Some (JObj items) ->
  truthy (item items "to" JNull) = true ->
  truthy (item items "subject" JNull) && truthy (item items "html" JNull)
    = false ->
  handle_outbound_mail_task st request w
  = (Raise (HTTPException 400
              (if truthy (item items "subject" JNull)
               then "Missing parameter 'html'"
               else "Missing parameter 'subject'")), w).
Proof.
  intros Hh Hj Hto Hmiss.
  rewrite handler_run, Hh, (outbound_message_obj st request items Hj), Hto.
  cbn [negb].
  destruct (truthy (item items "subject" JNull)); [|reflexivity].
  cbn [andb negb] in *. rewrite Hmiss. reflexivity.
Qed.

Lemma missing_subject_or_html_is_rejected_witness :
  handle_outbound_mail_task production
    (task_request [("to", JStr "a@x.com"); ("subject", JStr "s"); ("html", JInt 0)])
    quiet
  = (Raise (HTTPException 400 "Missing parameter 'html'"), quiet).
Proof.
  exact (missing_subject_or_html_is_rejected production
           (task_request [("to", JStr "a@x.com"); ("subject", JStr "s");
                          ("html", JInt 0)])
           [("to", JStr "a@x.com"); ("subject", JStr "s"); ("html", JInt 0)]
           quiet eq_refl eq_refl eq_refl eq_refl).
Defined.

(** X4: whatever the request, the handler never touches the stored
    preferences and makes at most one call to the transport, with the message
    it built and only when SEND_EMAIL is on; the only answer it gives is
    {'message': 'Done'}, and with SEND_EMAIL on it gives it only after a send
    that succeeded. *)
Theorem outbound_sends_at_most_once
    (st : Settings) (request : Request) (w : World) :
  prefs (snd (handle_outbound_mail_task st request w)) = prefs w
  /\ (snd (handle_outbound_mail_task st request w) = w
      \/ exists m,
           outbound_message st request = Ok m
           /\ SEND_EMAIL st = true
           /\ snd (handle_outbound_mail_task st request w)
              = logged w [EvSend m])
  /\ (forall response,
        fst (handle_outbound_mail_task st request w) = Ok response ->
        response = message_response "Done"
        /\ (SEND_EMAIL st = true ->
            mail_up w = true
            /\ exists m, snd (handle_outbound_mail_task st request w)
                         = logged w [EvSend m])).
Proof.
  rewrite handler_run.
  destruct (require_task_header st request);
    [|split; [reflexivity | split; [left; reflexivity | discriminate]]].
  destruct (outbound_message st request) as [m|e];
    [|split; [reflexivity | split; [left; reflexivity | discriminate]]].
  destruct (log_preview m);
    [|split; [reflexivity | split; [left; reflexivity | discriminate]]].
  destruct (SEND_EMAIL st) eqn:Hs.
  - split; [reflexivity|]. split.
    + right. exists m. repeat split.
    + cbn [fst snd]. intros response H.
      destruct (mail_up w); [|discriminate].
      injection H as <-. split; [reflexivity|]. intros _.
      split; [reflexivity|]. exists m. reflexivity.
  - split; [reflexivity|]. split; [left; reflexivity|].
    cbn [fst]. intros response H. injection H as <-.
    split; [reflexivity | discriminate].
Qed.

(** X5: with SEND_EMAIL off the handler calls nothing, and it answers
    {'message': 'Done'} exactly when the request passes the header check and
    the message can be built and previewed. *)
Theorem send_disabled_skips_transport
    (st : Settings) (request : Request) (w : World) :
  SEND_EMAIL st = false ->
  snd (handle_outbound_mail_task st request w) = w
  /\ (fst (handle_outbound_mail_task st request w)
        = Ok (message_response "Done")
      <-> require_task_header st request = Ok tt
          /\ exists m, outbound_message st request = Ok m
                       /\ log_preview m = Ok tt).
Proof.
  intros Hs. rewrite handler_run, Hs.
  destruct (require_task_header st request) as [[]|e].
  - destruct (outbound_message st request) as [m|e].
    + destruct (log_preview m) as [[]|e] eqn:Hl.
      * split; [reflexivity|]. split; [|reflexivity].
        intros _. split; [reflexivity|]. exists m. split; [reflexivity | exact Hl].
      * split; [reflexivity|]. split; [discriminate|].
        intros (_ & m' & Hm' & Hl'). injection Hm' as <-. congruence.
    + split; [reflexivity|]. split; [discriminate|].
      intros (_ & m' & Hm' & _). discriminate.
  - split; [reflexivity|]. split; [discriminate|].
    intros (H & _). discriminate.
Qed.

Lemma send_disabled_skips_transport_witness :
  snd (handle_outbound_mail_task muted (task_request example_task) quiet) = quiet
  /\ (fst (handle_outbound_mail_task muted (task_request example_task) quiet)
        = Ok (message_response "Done")
      <-> require_task_header muted (task_request example_task) = Ok tt
          /\ exists m, outbound_message muted (task_request example_task) = Ok m
                       /\ log_preview m = Ok tt).
Proof.
  exact (send_disabled_skips_transport muted (task_request example_task) quiet
           eq_refl).
Defined.










(** X8: the sender of the message built.  Without [from_user] it is the
    application's admin address; with a non-empty string u as [from_user] it
    is "u via Chromestatus" at the address admin+u of the application. *)
Theorem sender_names_the_submitter
    (st : Settings) (request : Request) (items : list (string * pyval))
    (m : EmailMessage) :
  req_json request = Some (JObj items) ->
  outbound_message st request = Ok m ->
  (assoc "from_user" items = None ->
   sender m = "Chromestatus <admin@" ++ APP_ID st ++ ".appspotmail.com>")
  /\ (forall u, assoc "from_user" items = Some (JStr u) -> u <> "" ->
      sender m = u ++ " via Chromestatus <admin+" ++ u ++ "@" ++ APP_ID st
                   ++ ".appspotmail.com>").
Proof.
  intros Hj Hm.
  destruct (outbound_message_inv st request items m Hj Hm)
    as (new_to & new_cc & _ & _ & ->).
  unfold built. cbn [sender]. unfold sender_for, item. split.
  - intros ->. reflexivity.
  - intros u -> Hu. cbn [truthy].
    destruct (String.eqb_spec u "") as [E|_]; [contradiction|]. reflexivity.
Qed.

Lemma sender_names_the_submitter_witness :
  sender (built production
            [("to", JStr "a@x.com"); ("from_user", JStr "dana");
             ("subject", JStr "s"); ("html", JStr "h")]
            (JList [JStr "a@x.com"]) JNull)
  = "dana via Chromestatus <admin+dana@cr-status.appspotmail.com>".
Proof.
  destruct (sender_names_the_submitter production
              (task_request [("to", JStr "a@x.com"); ("from_user", JStr "dana");
                             ("subject", JStr "s"); ("html", JStr "h")])
              [("to", JStr "a@x.com"); ("from_user", JStr "dana");
               ("subject", JStr "s"); ("html", JStr "h")]
              _ eq_refl eq_refl) as [_ H].
  apply (H "dana"); [reflexivity | discriminate].
Defined.

Lemma split_on_length (sep : ascii) (s : string) :
  List.length (split_on sep s) = S (count_char sep s).
Proof.
  induction s as [|c s IH]; [reflexivity|].
  cbn [split_on count_char]. destruct (char_eqb c sep).
  - cbn [List.length]. now rewrite IH.
  - destruct (split_on sep s) as [|piece pieces]; [discriminate IH|].
    exact IH.
Qed.

(** X9: with a staging template configured, an address that does not hold
    exactly one at sign makes [format_staging_email] raise ValueError; a
    task whose bare [to] address is such a string (and is not the exempt
    list) fails with that error and nothing is sent. *)
Theorem malformed_address_is_an_error
    (st : Settings) (request : Request) (items : list (string * pyval))
    (s : string) (w : World) :
  truthy_opt (SEND_ALL_EMAIL_TO st) = true ->
  count_char "@" s <> 1%nat ->
  require_task_header st request = Ok tt ->
  req_json request = Some (JObj items) ->
  assoc "to" items = Some (JStr s) ->
  s <> "" ->
  truthy (item items "subject" JNull) = true ->
  truthy (item items "html" JNull) = true ->
  py_eqb (JList [JStr s]) (REVIEW_COMMENT_MAILING_LIST st) = false ->
  format_staging_email st (JStr s) = Raise (ValueError "unpack")
  /\ handle_outbound_mail_task st request w = (Raise (ValueError "unpack"), w).
Proof.
  intros Hon Hcount Hh Hj Hto Hne Hsub Hhtml Hex.
  assert (Hfmt : format_staging_email st (JStr s) = Raise (ValueError "unpack")).
  { unfold format_staging_email. rewrite Hon. cbn [negb py_split rbind].
    pose proof (split_on_length "@" s) as Hlen.
    destruct (split_on "@" s) as [|a [|b [|c rest]]]; try reflexivity.
    cbn in Hlen. injection Hlen as Hlen. congruence. }
  split; [exact Hfmt|].
  rewrite handler_run, Hh, (outbound_message_obj st request items Hj).
  unfold item. rewrite Hto. fold (item items "subject" JNull).
  fold (item items "html" JNull). rewrite Hsub, Hhtml.
  assert (Hts : truthy (JStr s) = true)
    by (cbn; destruct (String.eqb_spec s ""); [contradiction | reflexivity]).
  rewrite Hts. cbn [negb as_list isinstance_str].
  unfold staging_rewrite. rewrite Hon, Hex. cbn [andb negb py_iter rbind rmapM].
  rewrite Hfmt. reflexivity.
Qed.

Lemma malformed_address_is_an_error_witness :
  format_staging_email staging_example (JStr "nobody") = Raise (ValueError "unpack")
  /\ handle_outbound_mail_task staging_example
       (task_request [("to", JStr "nobody"); ("subject", JStr "s");
                      ("html", JStr "h")]) quiet
     = (Raise (ValueError "unpack"), quiet).
Proof.
  apply (malformed_address_is_an_error staging_example
           (task_request [("to", JStr "nobody"); ("subject", JStr "s");
                          ("html", JStr "h")])
           [("to", JStr "nobody"); ("subject", JStr "s"); ("html", JStr "h")]
           "nobody" quiet);
    try reflexivity; discriminate.
Defined.



End OutboundMore.

(** ** More on inbound mail *)

Module IncomingMore.
Import Py Effects Sendemail Terms Fixtures IncomingFacts.
Local Open Scope result_scope.
Local Open Scope effect_scope.

Lemma addr_differs_false (addr : option string) (expected : string) :
  addr_differs addr expected = false -> addr = Some expected.
Proof.
  destruct addr as [a|]; cbn; [|discriminate].
  destruct (String.eqb_spec a expected) as [->|]; [reflexivity | discriminate].
Qed.

Lemma addr_differs_true (addr : option string) (expected : string) :
  addr <> Some expected -> addr_differs addr expected = true.
Proof.
  intros H. destruct (addr_differs addr expected) eqn:E; [reflexivity|].
  elim H. apply addr_differs_false, E.
Qed.

Lemma msg_get_absent (m : Message) (name failobj : string) :
  has_header name (msg_headers m) = false -> msg_get m name failobj = failobj.
Proof.
  unfold msg_get, has_header. induction (msg_headers m) as [|h hs IH];
    [reflexivity|].
  cbn. destruct (header_named name h); [discriminate|]. exact IH.
Qed.

Section Handler.

Variable parse_message : string -> Message.
Variable getaddresses : list string -> list (string * string).
Variable unquote : string -> string.

Local Abbreviation handle :=
  (handle_incoming_mail parse_message getaddresses unquote).
Local Abbreviation candidates := (from_candidates getaddresses).
Local Abbreviation checked := (passes_checks parse_message).
Local Abbreviation run := (incoming_run parse_message getaddresses unquote).
Local Abbreviation crun := (checked_run parse_message getaddresses unquote).

(** X11: mail delivered to any other address than INBOUND_EMAIL_ADDR is
    answered {'message': 'Wrong address'} before anything else is looked at:
    whatever its size or content, it is not parsed and nothing is enqueued. *)
Theorem other_address_is_turned_away
    (st : Settings) (request : Request) (addr : option string) (w : World) :
  addr <> Some (INBOUND_EMAIL_ADDR st) ->
  handle st request addr w = (Ok (message_response "Wrong address"), w).
Proof.
  intros H. unfold handle_incoming_mail.
  rewrite (addr_differs_true addr _ H). reflexivity.
Qed.

(** X12: whatever the request, the handler leaves the stored preferences
    alone and sends no mail; the calls it makes are none, or one parse, or
    one parse followed by one task enqueued at /tasks/detect-intent. *)
Theorem incoming_effects_are_bounded
    (st : Settings) (request : Request) (addr : option string) (w : World) :
  prefs (snd (handle st request addr w)) = prefs w
  /\ (snd (handle st request addr w) = w
      \/ snd (handle st request addr w) = logged w [EvParse (req_data request)]
      \/ exists task,
           snd (handle st request addr w) = after_enqueue w request task).
Proof.
  destruct (addr_differs addr (INBOUND_EMAIL_ADDR st)) eqn:E.
  - unfold handle_incoming_mail. rewrite E. split; [reflexivity | left; reflexivity].
  - rewrite (addr_differs_false _ _ E), run.
    destruct (content_length request) as [n|];
      [|split; [reflexivity | left; reflexivity]].
    destruct (MAX_BODY_SIZE <? n);
      [split; [reflexivity | left; reflexivity]|].
    cbv zeta. destruct (str_in _ _);
      [split; [reflexivity | right; left; reflexivity]|].
    destruct (candidates _) as [|a rest];
      [split; [reflexivity | right; left; reflexivity]|].
    destruct (plain_text_body _) as [body|e];
      [|split; [reflexivity | right; left; reflexivity]].
    split; [reflexivity|]. right. right. eexists. reflexivity.
Qed.

(** X13: the answers.  {'message': 'Done'} is given only when the task queue
    accepted one task for this message; any other answer is one of the four
    soft rejects, and then nothing was enqueued. *)
Theorem done_means_enqueued
    (st : Settings) (request : Request) (addr : option string) (w : World)
    (response : pyval) :
  fst (handle st request addr w) = Ok response ->
  (response = message_response "Done"
   /\ queue_up w = true
   /\ exists task, snd (handle st request addr w) = after_enqueue w request task)
  \/ (In response soft_rejects
      /\ enqueued (trace (snd (handle st request addr w))) = enqueued (trace w)).
Proof.
  assert (Hparsed : enqueued (trace (logged w [EvParse (req_data request)]))
                    = enqueued (trace w)).
  { cbn [logged trace]. rewrite enqueued_app. cbn. apply app_nil_r. }
  destruct (addr_differs addr (INBOUND_EMAIL_ADDR st)) eqn:E.
  - unfold handle_incoming_mail. rewrite E. cbn [ret fst snd].
    intros H. injection H as <-. right. split; [left; reflexivity | reflexivity].
  - rewrite (addr_differs_false _ _ E), run.
    destruct (content_length request) as [n|]; [|discriminate].
    destruct (MAX_BODY_SIZE <? n).
    { cbn [fst snd]. intros H. injection H as <-. right.
      split; [right; left; reflexivity | reflexivity]. }
    cbv zeta. destruct (str_in _ _).
    { cbn [fst snd]. intros H. injection H as <-. right.
      split; [right; right; left; reflexivity | exact Hparsed]. }
    destruct (candidates _) as [|a rest].
    { cbn [fst snd]. intros H. injection H as <-. right.
      split; [right; right; right; left; reflexivity | exact Hparsed]. }
    destruct (plain_text_body _) as [body|e]; [|discriminate].
    cbn [fst snd]. destruct (queue_up w); [|discriminate].
    intros H. injection H as <-. left.
    split; [reflexivity|]. split; [reflexivity|]. eexists. reflexivity.
Qed.

(** X14: the size test is strict: for mail to the inbound address the answer
    is {'message': 'Too big'} exactly when the content length is above
    MAX_BODY_SIZE; a message of exactly that size is let through. *)
Theorem too_big_iff_above_ceiling
    (st : Settings) (request : Request) (w : World) (n : Z) :
  content_length request = Some n ->
  (fst (handle st request (Some (INBOUND_EMAIL_ADDR st)) w)
     = Ok (message_response "Too big")
   <-> MAX_BODY_SIZE < n).
Proof.
  intros Hn. rewrite run, Hn.
  destruct (Z.ltb_spec MAX_BODY_SIZE n) as [Hlt|Hge].
  - split; [intros _; exact Hlt | reflexivity].
  - split; [|intros Hlt; exfalso; apply (Z.lt_irrefl n);
             apply (Z.le_lt_trans _ _ _ Hge), Hlt].
    cbv zeta. destruct (str_in _ _); [discriminate|].
    destruct (candidates _) as [|a rest]; [discriminate|].
    destruct (plain_text_body _) as [body|e]; [|discriminate].
    cbn [fst]. destruct (queue_up w); discriminate.
Qed.

(** X15: only the first text/plain part counts.  When its payload is not
    well-formed UTF-8 the handler fails with UnicodeDecodeError after parsing,
    whatever parts follow it, and no task is enqueued. *)
Theorem undecodable_text_is_not_enqueued
    (st : Settings) (request : Request) (addr : option string) (w : World)
    (a : string) (rest : list string)
    (pre post : list Message) (p : Message) (bytes : string) :
  checked st request addr ->
  candidates (parse_message (req_data request)) = a :: rest ->
  walk (parse_message (req_data request)) = (pre ++ p :: post)%list ->
  forallb not_text_plain pre = true ->
  is_text_plain p = true ->
  get_payload_decoded p = Some bytes ->
  valid_utf8 bytes = false ->
  handle st request addr w
  = (Raise UnicodeDecodeError, logged w [EvParse (req_data request)]).
Proof.
  intros Hc Ha Hw Hpre Hp Hb Hv. rewrite (crun st request addr w Hc).
  cbv zeta. rewrite Ha, Hw, (plain_text_body_skip pre _ Hpre).
  cbn [plain_text_body]. rewrite Hp, Hb. unfold decode_utf8. rewrite Hv.
  reflexivity.
Qed.

(** X16: the task enqueued for an accepted message has the five fields
    to_addr, from_addr, subject, in_reply_to and body, in that order; to_addr
    is the URL-decoded inbound address, and subject and in_reply_to are the
    empty string when the message has no such header. *)
Theorem task_fields
    (st : Settings) (request : Request) (addr : option string) (w : World)
    (a : string) (rest : list string) (text : string) :
  checked st request addr ->
  candidates (parse_message (req_data request)) = a :: rest ->
  plain_text_body (walk (parse_message (req_data request))) = Ok text ->
  exists task,
    snd (handle st request addr w) = after_enqueue w request task
    /\ map fst task = ["to_addr"; "from_addr"; "subject"; "in_reply_to"; "body"]
    /\ assoc "to_addr" task = Some (JStr (unquote (INBOUND_EMAIL_ADDR st)))
    /\ assoc "subject" task
       = Some (JStr (msg_get (parse_message (req_data request)) "subject" ""))
    /\ assoc "in_reply_to" task
       = Some (JStr (msg_get (parse_message (req_data request)) "in-reply-to" ""))
    /\ (has_header "subject" (msg_headers (parse_message (req_data request)))
          = false -> assoc "subject" task = Some (JStr ""))
    /\ (has_header "in-reply-to" (msg_headers (parse_message (req_data request)))
          = false -> assoc "in_reply_to" task = Some (JStr "")).
Proof.
  intros Hc Ha Hb. rewrite (crun st request addr w Hc). cbv zeta.
  rewrite Ha, Hb. eexists. split; [reflexivity|].
  split; [reflexivity|]. split; [reflexivity|]. split; [reflexivity|].
  split; [reflexivity|]. split.
  - intros H. cbn. rewrite (msg_get_absent _ _ _ H). reflexivity.
  - intros H. cbn. rewrite (msg_get_absent _ _ _ H). reflexivity.
Qed.

End Handler.

Lemma other_address_is_turned_away_witness :
  handle_incoming_mail parse_fixture bare_addresses same production
    (inbound_request "reply" 20971521) (Some "someone@else.example") quiet
  = (Ok (message_response "Wrong address"), quiet).
Proof.
  apply (other_address_is_turned_away parse_fixture bare_addresses same
           production (inbound_request "reply" 20971521)
           (Some "someone@else.example") quiet).
  discriminate.
Defined.

Lemma done_means_enqueued_witness :
  (message_response "Done" = message_response "Done"
   /\ queue_up quiet = true
   /\ exists task,
        snd (handle_incoming_mail parse_fixture bare_addresses same production
               (inbound_request "reply" 512) inbound_addr quiet)
        = after_enqueue quiet (inbound_request "reply" 512) task)
  \/ (In (message_response "Done") soft_rejects
      /\ enqueued (trace (snd (handle_incoming_mail parse_fixture bare_addresses
                                 same production (inbound_request "reply" 512)
                                 inbound_addr quiet)))
         = enqueued (trace quiet)).
Proof.
  exact (done_means_enqueued parse_fixture bare_addresses same production
           (inbound_request "reply" 512) inbound_addr quiet
           (message_response "Done") eq_refl).
Defined.

Lemma too_big_iff_above_ceiling_witness :
  fst (handle_incoming_mail parse_fixture bare_addresses same production
         (inbound_request "reply" 20971520)
         (Some (INBOUND_EMAIL_ADDR production)) quiet)
    = Ok (message_response "Too big")
  <-> MAX_BODY_SIZE < 20971520.
Proof.
  exact (too_big_iff_above_ceiling parse_fixture bare_addresses same production
           (inbound_request "reply" 20971520) quiet 20971520 eq_refl).
Defined.

Lemma latin1_passes_checks :
  passes_checks parse_latin1 production (inbound_request "reply" 512)
                inbound_addr.
Proof.
  split; [reflexivity|]. split; [|reflexivity].
  exists 512. split; [reflexivity|]. vm_compute. discriminate.
Defined.

Lemma undecodable_text_is_not_enqueued_witness :
  handle_incoming_mail parse_latin1 bare_addresses same production
    (inbound_request "reply" 512) inbound_addr quiet
  = (Raise UnicodeDecodeError, logged quiet [EvParse "reply"]).
Proof.
  exact (undecodable_text_is_not_enqueued parse_latin1 bare_addresses same
           production (inbound_request "reply" 512) inbound_addr quiet
           "ann@example.com" []
           [latin1_then_utf8]
           [Leaf [] "text/plain" "ete"]
           (Leaf [] "text/plain" (String (ascii_of_N 233) "t"))
           (String (ascii_of_N 233) "t")
           latin1_passes_checks eq_refl eq_refl eq_refl eq_refl eq_refl eq_refl).
Defined.

Lemma bare_passes_checks :
  passes_checks parse_bare production (inbound_request "bare" 64) inbound_addr.
Proof.
  split; [reflexivity|]. split; [|reflexivity].
  exists 64. split; [reflexivity|]. vm_compute. discriminate.
Defined.

Lemma task_fields_witness :
  exists task,
    snd (handle_incoming_mail parse_bare bare_addresses same production
           (inbound_request "bare" 64) inbound_addr quiet)
    = after_enqueue quiet (inbound_request "bare" 64) task
    /\ map fst task = ["to_addr"; "from_addr"; "subject"; "in_reply_to"; "body"]
    /\ assoc "to_addr" task = Some (JStr (same (INBOUND_EMAIL_ADDR production)))
    /\ assoc "subject" task
       = Some (JStr (msg_get (parse_bare "bare") "subject" ""))
    /\ assoc "in_reply_to" task
       = Some (JStr (msg_get (parse_bare "bare") "in-reply-to" ""))
    /\ (has_header "subject" (msg_headers (parse_bare "bare")) = false ->
        assoc "subject" task = Some (JStr ""))
    /\ (has_header "in-reply-to" (msg_headers (parse_bare "bare")) = false ->
        assoc "in_reply_to" task = Some (JStr "")).
Proof.
  exact (task_fields parse_bare bare_addresses same production
           (inbound_request "bare" 64) inbound_addr quiet
           "ann@example.com" [] "" bare_passes_checks eq_refl eq_refl).
Defined.

(** A message of exactly the ceiling is handled like any other. *)
Example ceiling_is_accepted :
  handle_incoming_mail parse_bare bare_addresses same production
    (inbound_request "bare" 20971520) inbound_addr quiet
  = (Ok (message_response "Done"),
     after_enqueue quiet (inbound_request "bare" 20971520)
       (task_dict "chromestatus@cr-status.appspotmail.com" "ann@example.com"
                  "" "" "")).
Proof. reflexivity. Qed.

End IncomingMore.

(** ** More on bounce handling *)

Module BounceMore.
Import Py Effects Sendemail BounceHandler Terms Fixtures BounceFacts.
Local Open Scope result_scope.
Local Open Scope effect_scope.

Lemma opt_str_eqb_eq (a b : option string) :
  opt_str_eqb a b = true -> a = b.
Proof.
  destruct a as [x|], b as [y|]; cbn; try discriminate; [|reflexivity].
  destruct (String.eqb_spec x y) as [->|]; [reflexivity | discriminate].
Qed.

(** Looking up another address is not affected by a put. *)
Lemma stored_other_after_put (w : World) (p : UserPref) (other : option string) :
  email p <> other ->
  stored_pref (after_put w p) other = stored_pref w other.
Proof.
  intros Hne. unfold stored_pref, after_put. cbn [prefs find].
  assert (Hp : same_email other p = false).
  { unfold same_email. destruct (opt_str_eqb (email p) other) eqn:E;
      [|reflexivity]. elim Hne. apply opt_str_eqb_eq, E. }
  rewrite Hp. induction (prefs w) as [|q qs IH]; [reflexivity|].
  cbn [filter find]. destruct (same_email (email p) q) eqn:Eq; cbn [negb].
  - rewrite IH. destruct (same_email other q) eqn:Eo; [|reflexivity].
    elim Hne. unfold same_email in Eq, Eo.
    apply opt_str_eqb_eq in Eq, Eo. congruence.
  - cbn [find]. destruct (same_email other q); [reflexivity | exact IH].
Qed.

Section Receive.

Variable bounce_notification : list (string * string) -> BounceNotification.
Variable get_prefs_for_emails :
  list UserPref -> list (option string) -> list UserPref.

Local Abbreviation receive := (Sendemail.receive get_prefs_for_emails).
Local Abbreviation handle_bounce :=
  (BounceHandler.handle_bounce bounce_notification get_prefs_for_emails).
Local Abbreviation rrun := (receive_run get_prefs_for_emails).

Lemma handle_bounce_run (st : Settings) (form : list (string * string))
    (w : World) :
  handle_bounce st form w
  = match receive st (bounce_notification form) w with
    | (Ok _, w') => (Ok (message_response "Done"), w')
    | (Raise e, w') => (Raise e, w')
    end.
Proof.
  unfold BounceHandler.handle_bounce, bind, ret.
  destruct (Sendemail.receive _ _ _ _) as [[u|e] w']; reflexivity.
Qed.

(** X17: when no preference record is found for the bounced address,
    [receive] fails with IndexError before anything is persisted or sent, and
    [handle_bounce] fails with it instead of answering. *)
Theorem unknown_address_is_an_index_error
    (st : Settings) (form : list (string * string)) (w : World) :
  get_prefs_for_emails (prefs w) [original_get (bounce_notification form) "to"]
    = [] ->
  receive st (bounce_notification form) w = (Raise IndexError, w)
  /\ handle_bounce st form w = (Raise IndexError, w).
Proof.
  intros H.
  assert (Hr : receive st (bounce_notification form) w = (Raise IndexError, w))
    by (rewrite rrun, H; reflexivity).
  split; [exact Hr|]. rewrite handle_bounce_run, Hr. reflexivity.
Qed.

(** X18: a bounce whose address resolves to a record and whose original
    has its four fields: the record is stored with bounced set, then, when
    SEND_EMAIL is on, one mail goes to BOUNCE_ESCALATION_ADDR from the
    application's admin address, its subject quoting the bounced (ASCII)
    address and its text listing the four fields; the webhook answers
    {'message': 'Done'}. *)
Theorem bounce_is_escalated
    (st : Settings) (form : list (string * string)) (w : World)
    (p : UserPref) (ps : list UserPref) (from to_addr subj text : string) :
  get_prefs_for_emails (prefs w) [original_get (bounce_notification form) "to"]
    = p :: ps ->
  assoc "from" (original (bounce_notification form)) = Some from ->
  assoc "to" (original (bounce_notification form)) = Some to_addr ->
  is_ascii to_addr = true ->
  assoc "subject" (original (bounce_notification form)) = Some subj ->
  assoc "text" (original (bounce_notification form)) = Some text ->
  BOUNCE_ESCALATION_ADDR st <> "" ->
  (SEND_EMAIL st = true -> mail_up w = true) ->
  fst (handle_bounce st form w) = Ok (message_response "Done")
  /\ trace (snd (handle_bounce st form w))
     = (trace w
        ++ EvPut (mkPref (email p) true)
        :: (if SEND_EMAIL st
            then [EvSend (mkEmail
                   ("Chromestatus <admin@" ++ APP_ID st ++ ".appspotmail.com>")
                   (JStr (BOUNCE_ESCALATION_ADDR st))
                   (JStr ("Mail to " ++ repr_str to_addr ++ " bounced"))
                   None (Some (escalation_text from to_addr subj text))
                   None None [])]
            else []))%list.
Proof.
  intros Hp Hf Ht _ Hs Hx Haddr Hup.
  rewrite handle_bounce_run, rrun, Hp. cbv zeta.
  assert (Hbody : bounce_body (bounce_notification form)
                  = Ok (escalation_text from to_addr subj text)).
  { unfold bounce_body, field. rewrite Hf, Ht, Hs, Hx. reflexivity. }
  rewrite Hbody.
  assert (Hinit : check_initialized
                    (escalation st (bounce_notification form)
                       (escalation_text from to_addr subj text)) = Ok tt).
  { unfold check_initialized, escalation. cbn [sender to subject].
    unfold truthy, truthy_str, default_sender. cbn.
    destruct (BOUNCE_ESCALATION_ADDR st); [congruence | reflexivity]. }
  rewrite Hinit. unfold escalation, original_get, default_sender.
  rewrite Ht. cbn [repr_opt].
  destruct (SEND_EMAIL st).
  - rewrite (Hup eq_refl). split; [reflexivity|].
    cbn [snd logged after_put trace]. rewrite <- app_assoc. reflexivity.
  - split; reflexivity.
Qed.

(** X19: a bounce changes the stored record of one address only: the record
    found under any address other than that of the record [receive] marks
    is the same after as before, whatever the outcome. *)
Theorem other_records_are_untouched
    (st : Settings) (b : BounceNotification) (w : World)
    (other : option string) :
  (forall p ps,
      get_prefs_for_emails (prefs w) [original_get b "to"] = p :: ps ->
      email p <> other) ->
  stored_pref (snd (receive st b w)) other = stored_pref w other.
Proof.
  intros H. rewrite rrun.
  destruct (get_prefs_for_emails _ _) as [|p ps] eqn:Hp; [reflexivity|].
  specialize (H p ps eq_refl). cbv zeta.
  assert (Hk : forall es,
             stored_pref (logged (after_put w (mkPref (email p) true)) es) other
             = stored_pref w other).
  { intros es.
    exact (stored_other_after_put w (mkPref (email p) true) other H). }
  destruct (bounce_body b) as [body|e]; [|exact (Hk [])].
  destruct (check_initialized _); [|exact (Hk [])].
  destruct (SEND_EMAIL st); [apply Hk | exact (Hk [])].
Qed.

End Receive.

Lemma lookup_one (stored : list UserPref) (addr : option string) :
  exists p, lookup_or_create stored [addr] = [p] /\ email p = addr.
Proof.
  unfold lookup_or_create. cbn [map].
  destruct (find (same_email addr) stored) as [q|] eqn:E.
  - exists q. split; [reflexivity|].
    apply find_some in E as [_ E]. apply opt_str_eqb_eq, E.
  - eexists. split; reflexivity.
Qed.

Lemma filter_twice {A} (f : A -> bool) (l : list A) :
  filter f (filter f l) = filter f l.
Proof.
  induction l as [|x l IH]; [reflexivity|].
  cbn [filter]. destruct (f x) eqn:E; [|exact IH].
  cbn [filter]. rewrite E, IH. reflexivity.
Qed.

(** X20: with preferences looked up or created as the specification has it,
    ingesting the same bounce a second time changes nothing in the store: the
    record of the address is there with bounced set after the first time and
    the stored records are the same after the second. *)
Theorem second_bounce_changes_nothing
    (st : Settings) (b : BounceNotification) (w : World) :
  let w1 := snd (receive lookup_or_create st b w) in
  let w2 := snd (receive lookup_or_create st b w1) in
  stored_pref w1 (original_get b "to")
    = Some (mkPref (original_get b "to") true)
  /\ prefs w2 = prefs w1.
Proof.
  cbv zeta. set (addr := original_get b "to").
  destruct (lookup_one (prefs w) addr) as (p & Hp & He).
  set (marked := mkPref addr true).
  set (keep := fun q : UserPref => negb (same_email addr q)).
  assert (Hmarked : same_email addr marked = true).
  { unfold same_email. cbn [email marked]. apply opt_str_eqb_refl. }
  assert (Hw1 : prefs (snd (receive lookup_or_create st b w))
                = marked :: filter keep (prefs w)).
  { rewrite receive_run. fold addr. rewrite Hp. cbv zeta. rewrite He.
    fold marked.
    destruct (bounce_body b) as [body|e]; [|reflexivity].
    destruct (check_initialized _); [|reflexivity].
    destruct (SEND_EMAIL st); reflexivity. }
  remember (snd (receive lookup_or_create st b w)) as w1 eqn:Ew1.
  split.
  - unfold stored_pref. rewrite Hw1. cbn [find]. rewrite Hmarked. reflexivity.
  - assert (Hfind : lookup_or_create (prefs w1) [addr] = [marked]).
    { unfold lookup_or_create. rewrite Hw1. cbn [map find].
      rewrite Hmarked. reflexivity. }
    assert (Hsame : prefs (after_put w1 marked) = prefs w1).
    { cbn [after_put prefs email marked]. fold keep. rewrite Hw1.
      cbn [filter]. unfold keep at 1. rewrite Hmarked. cbn [negb].
      rewrite filter_twice. reflexivity. }
    rewrite receive_run. fold addr. rewrite Hfind. cbv zeta.
    cbn [email marked]. fold marked.
    destruct (bounce_body b) as [body|e]; [|exact Hsame].
    destruct (check_initialized _); [|exact Hsame].
    destruct (SEND_EMAIL st); exact Hsame.
Qed.

Lemma unknown_address_is_an_index_error_witness :
  receive nobody_found production (form_bounce (original bounce_example)) all_up
    = (Raise IndexError, all_up)
  /\ handle_bounce form_bounce nobody_found production
       (original bounce_example) all_up
     = (Raise IndexError, all_up).
Proof.
  exact (unknown_address_is_an_index_error form_bounce nobody_found production
           (original bounce_example) all_up eq_refl).
Defined.

Lemma bounce_is_escalated_witness :
  fst (handle_bounce form_bounce lookup_or_create production
         (original bounce_example) all_up)
    = Ok (message_response "Done")
  /\ trace (snd (handle_bounce form_bounce lookup_or_create production
                   (original bounce_example) all_up))
     = (trace all_up
        ++ EvPut (mkPref (Some "user@x.com") true)
        :: (if SEND_EMAIL production
            then [EvSend (mkEmail
                   ("Chromestatus <admin@" ++ APP_ID production
                    ++ ".appspotmail.com>")
                   (JStr (BOUNCE_ESCALATION_ADDR production))
                   (JStr ("Mail to " ++ repr_str "user@x.com" ++ " bounced"))
                   None
                   (Some (escalation_text "admin@cr-status.appspotmail.com"
                            "user@x.com" "Review requested" "Please review."))
                   None None [])]
            else []))%list.
Proof.
  apply (bounce_is_escalated form_bounce lookup_or_create production
           (original bounce_example) all_up
           (mkPref (Some "user@x.com") false) []
           "admin@cr-status.appspotmail.com" "user@x.com"
           "Review requested" "Please review.");
    try reflexivity.
  discriminate.
Defined.

Lemma other_records_are_untouched_witness :
  stored_pref (snd (receive lookup_or_create production bounce_example all_up))
              (Some "other@y.org")
  = stored_pref all_up (Some "other@y.org").
Proof.
  apply (other_records_are_untouched lookup_or_create production bounce_example
           all_up (Some "other@y.org")).
  intros p ps H. injection H as <- _. discriminate.
Defined.

End BounceMore.

(** ** More on the star-toggle API *)

Module StarsMore.
Import Py Effects StarsApi Terms Fixtures.
Local Open Scope effect_scope.

(** X21: whatever the request, [do_post] either fails and calls nothing, or
    makes exactly one set_star call, for the e-mail of the signed-in user and
    a feature that exists, and answers {'message': 'Done'}: nobody's stars
    but the caller's are ever changed. *)
Theorem only_own_stars_change (self : Handler) (w : World) :
  (snd (do_post self w) = w /\ exists e, fst (do_post self w) = Raise e)
  \/ exists user feature_id starred,
       current_user self = Some user
       /\ truthy (get_feature self feature_id) = true
       /\ do_post self w
          = (Ok (message_response "Done"),
             logged w [EvSetStar (user_email user) feature_id starred]).
Proof.
  unfold do_post, get_json, bind, lift, abort, dict_get, dict_get_default.
  destruct (request_json self) as [body|];
    [|left; split; [reflexivity | eexists; reflexivity]].
  destruct body as [| b | n | s | xs | items];
    try (left; split; [reflexivity | eexists; reflexivity]).
  cbn [lift].
  destruct (item items "featureId" JNull) as [| b | fid | s | xs | its];
    try (left; split; [reflexivity | eexists; reflexivity]).
  destruct (truthy (get_feature self fid)) eqn:Hf;
    [|left; split; [reflexivity | eexists; reflexivity]].
  cbn [negb].
  destruct (current_user self) as [user|] eqn:Hu;
    [|left; split; [reflexivity | eexists; reflexivity]].
  right. exists user, fid, (item items "starred" (JBool true)).
  split; [reflexivity|]. split; [exact Hf | reflexivity].
Qed.

(** X22: a featureId that is not an int (absent, null, a string, a list,
    and also true or false) is refused with status 400 before the feature
    or the session is looked at. *)
Theorem non_int_feature_id_is_400
    (self : Handler) (items : list (string * pyval)) (w : World) :
  request_json self = Some (JObj items) ->
  is_int (item items "featureId" JNull) = false ->
  do_post self w = (Raise (HTTPException 400 ""), w).
Proof.
  intros Hj Hi.
  unfold do_post, get_json, bind, lift, abort, dict_get, dict_get_default.
  rewrite Hj. cbn [lift].
  destruct (item items "featureId" JNull); try reflexivity. discriminate.
Qed.

Lemma non_int_feature_id_is_400_witness :
  do_post (signed_in [("featureId", JStr "7")]) quiet
  = (Raise (HTTPException 400 ""), quiet).
Proof.
  exact (non_int_feature_id_is_400 (signed_in [("featureId", JStr "7")])
           [("featureId", JStr "7")] quiet eq_refl eq_refl).
Defined.

(** X23: an integer featureId for which no feature is found is answered
    404, signed in or not, and nothing is starred. *)
Theorem unknown_feature_is_404
    (self : Handler) (items : list (string * pyval)) (feature_id : Z)
    (w : World) :
  request_json self = Some (JObj items) ->
  assoc "featureId" items = Some (JInt feature_id) ->
  truthy (get_feature self feature_id) = false ->
  do_post self w = (Raise (HTTPException 404 ""), w).
Proof.
  intros Hj Hi Hf.
  unfold do_post, get_json, bind, lift, abort, dict_get, dict_get_default, item.
  rewrite Hj. cbn [lift]. rewrite Hi, Hf. reflexivity.
Qed.

Lemma unknown_feature_is_404_witness :
  do_post (anonymous [("featureId", JInt 8)]) quiet
  = (Raise (HTTPException 404 ""), quiet).
Proof.
  exact (unknown_feature_is_404 (anonymous [("featureId", JInt 8)])
           [("featureId", JInt 8)] 8 quiet eq_refl eq_refl eq_refl).
Defined.

(** X24: without a signed-in user nothing can be starred: [do_get] lists no
    feature, and [do_post] fails and calls nothing whatever the body; for an
    existing feature the failure is status 400. *)
Theorem anonymous_cannot_star
    (self : Handler) (w : World) :
  current_user self = None ->
  do_get self = JObj [("featureIds", JList [])]
  /\ snd (do_post self w) = w
  /\ (exists e, fst (do_post self w) = Raise e)
  /\ (forall items feature_id,
        request_json self = Some (JObj items) ->
        assoc "featureId" items = Some (JInt feature_id) ->
        truthy (get_feature self feature_id) = true ->
        fst (do_post self w) = Raise (HTTPException 400 "")).
Proof.
  intros Hu. split; [unfold do_get; rewrite Hu; reflexivity|].
  assert (Hfail : snd (do_post self w) = w
                  /\ exists e, fst (do_post self w) = Raise e).
  { unfold do_post, get_json, bind, lift, abort, dict_get, dict_get_default.
    rewrite Hu.
    destruct (request_json self) as [body|];
      [|split; [reflexivity | eexists; reflexivity]].
    destruct body as [| b | n | s | xs | items];
      try (split; [reflexivity | eexists; reflexivity]).
    cbn [lift].
    destruct (item items "featureId" JNull) as [| b | fid | s | xs | its];
      try (split; [reflexivity | eexists; reflexivity]).
    destruct (truthy (get_feature self fid));
      split; try reflexivity; eexists; reflexivity. }
  destruct Hfail as [Hw He].
  split; [exact Hw|]. split; [exact He|].
  intros items fid Hj Hi Hf.
  unfold do_post, get_json, bind, lift, abort, dict_get, dict_get_default, item.
  rewrite Hj. cbn [lift]. rewrite Hi, Hf, Hu. reflexivity.
Qed.

Lemma anonymous_cannot_star_witness :
  do_get (anonymous [("featureId", JInt 7)]) = JObj [("featureIds", JList [])]
  /\ snd (do_post (anonymous [("featureId", JInt 7)]) quiet) = quiet
  /\ (exists e, fst (do_post (anonymous [("featureId", JInt 7)]) quiet) = Raise e)
  /\ (forall items feature_id,
        request_json (anonymous [("featureId", JInt 7)]) = Some (JObj items) ->
        assoc "featureId" items = Some (JInt feature_id) ->
        truthy (get_feature (anonymous [("featureId", JInt 7)]) feature_id) = true ->
        fst (do_post (anonymous [("featureId", JInt 7)]) quiet)
        = Raise (HTTPException 400 "")).
Proof.
  exact (anonymous_cannot_star (anonymous [("featureId", JInt 7)]) quiet eq_refl).
Defined.

(** X25: the value given as [starred] is handed to set_star as it is,
    whatever its type: false, 0 or an empty string are passed on, not
    replaced by the default. *)
Theorem starred_is_passed_on
    (self : Handler) (items : list (string * pyval)) (feature_id : Z)
    (user : User) (starred : pyval) (w : World) :
  request_json self = Some (JObj items) ->
  assoc "featureId" items = Some (JInt feature_id) ->
  truthy (get_feature self feature_id) = true ->
  current_user self = Some user ->
  assoc "starred" items = Some starred ->
  do_post self w
  = (Ok (message_response "Done"),
     logged w [EvSetStar (user_email user) feature_id starred]).
Proof.
  intros Hj Hi Hf Hu Hs.
  unfold do_post, get_json, bind, lift, dict_get, dict_get_default, item.
  rewrite Hj. cbn [lift]. rewrite Hi, Hs, Hf, Hu. reflexivity.
Qed.

Lemma starred_is_passed_on_witness :
  do_post (signed_in [("featureId", JInt 7); ("starred", JInt 0)]) quiet
  = (Ok (message_response "Done"),
     logged quiet [EvSetStar "user@x.com" 7 (JInt 0)]).
Proof.
  exact (starred_is_passed_on
           (signed_in [("featureId", JInt 7); ("starred", JInt 0)])
           [("featureId", JInt 7); ("starred", JInt 0)] 7
           (mkUser "user@x.com") (JInt 0) quiet
           eq_refl eq_refl eq_refl eq_refl eq_refl).
Defined.

End StarsMore.
